(** * Mistral FIM language model: request builder and response normalizer

    A shallow embedding of [MistralFimLanguageModel] (getArgs, doGenerate,
    doStream), of the helpers [extractTextContent] and
    [extractUserPromptContent], and of the provider option schema
    [mistralFimProviderOptions], followed by the properties of the
    specification stated against them.

    Conventions.
    - [undefined] / [null] of an optional field is [None]; where the source
      distinguishes a value union (the content union) the variants are
      spelled out.
    - JavaScript numbers are only copied by this code, never computed with;
      they are modelled as [Z].
    - An exception is a value of [Exception]; code that can throw returns a
      [Result].
    - The HTTP transport is an explicit [Transport] argument and every
      dispatched request is appended to a log threaded through the monad
      [M], so that "no network call" is a statement about the log. *)

From Stdlib Require Import ZArith Lia.
From stdpp Require Import base option list strings gmap.

Set Default Proof Using "Type".

(** ** JSON values *)

#[warnings="-register-all"]
Inductive JSONValue : Type :=
| JNull
| JBool (b : bool)
| JNumber (n : Z)
| JString (s : string)
| JArray (items : list JSONValue)
| JObject (fields : list (string * JSONValue)).

Abbreviation Headers := (gmap string string).
Abbreviation ProviderOptions := (gmap string (gmap string JSONValue)).

(** ** Exceptions and results *)

Inductive Exception : Type :=
| EmptyPromptError                 (* new Error('Empty prompt') *)
| InvalidArgumentError (argument : string)
| TypeError                        (* property read on undefined *)
| LoadAPIKeyError
| APICallError (message : string).

Inductive Result (A : Type) : Type :=
| Ok (a : A)
| Throw (e : Exception).
Arguments Ok {A} a.
Arguments Throw {A} e.

#[global] Instance Result_ret : MRet Result := fun _ a => Ok a.
#[global] Instance Result_bind : MBind Result := fun _ _ f r =>
  match r with
  | Ok a => f a
  | Throw e => Throw e
  end.

#[global] Instance Result_fmap : FMap Result := fun _ _ f r =>
  match r with
  | Ok a => Ok (f a)
  | Throw e => Throw e
  end.

(** ** The generic call description (LanguageModelV2CallOptions) *)

Inductive UserContentPart : Type :=
| UserText (text : string)
| UserFile (filename : option string) (data : string) (mediaType : string).

Inductive AssistantContentPart : Type :=
| AssistantText (text : string)
| AssistantFile (data : string) (mediaType : string)
| AssistantReasoning (text : string)
| AssistantToolCall (toolCallId toolName : string) (input : JSONValue)
| AssistantToolResult (toolCallId toolName : string) (output : JSONValue).

Inductive ToolContentPart : Type :=
| ToolResult (toolCallId toolName : string) (output : JSONValue).

Inductive Message : Type :=
| SystemMessage (content : string)
| UserMessage (content : list UserContentPart)
| AssistantMessage (content : list AssistantContentPart)
| ToolMessage (content : list ToolContentPart).

Inductive ResponseFormat : Type :=
| FormatText
| FormatJson (schema : option JSONValue) (name description : option string).

Inductive ToolSpec : Type :=
| FunctionTool (name : string) (description : option string)
               (inputSchema : JSONValue)
| ProviderDefinedTool (id name : string) (args : JSONValue).

Inductive ToolChoice : Type :=
| ChoiceAuto
| ChoiceNone
| ChoiceRequired
| ChoiceTool (toolName : string).

Module Call.
Record t : Type := mk {
  prompt : list Message;
  maxOutputTokens : option Z;
  temperature : option Z;
  topP : option Z;
  topK : option Z;
  frequencyPenalty : option Z;
  presencePenalty : option Z;
  stopSequences : option (list string);
  responseFormat : option ResponseFormat;
  seed : option Z;
  providerOptions : option ProviderOptions;
  tools : option (list ToolSpec);
  toolChoice : option ToolChoice;
  includeRawChunks : option bool;
  headers : option Headers
}.
End Call.

Inductive LanguageModelV2CallWarning : Type :=
| UnsupportedSetting (setting : string).

#[global] Instance warning_eq_dec : EqDecision LanguageModelV2CallWarning.
Proof. solve_decision. Defined.

(** ** Provider options (mistral-fim-options.ts) *)

Inductive StopValue : Type :=
| StopString (s : string)
| StopList (l : list string).

Module Options.
Record t : Type := mk {
  stop : option StopValue;
  suffix : option string;
  min_token : option Z
}.
(* the [{}] of [parseProviderOptions(...) ?? {}] *)
Definition empty : t := mk None None None.
End Options.

(** [z.string()] on one array element. *)
Definition asString (v : JSONValue) : option string :=
  match v with
  | JString s => Some s
  | _ => None
  end.

(** [z.array(z.string())]: every element has to be a string. *)
Fixpoint asStrings (vs : list JSONValue) : option (list string) :=
  match vs with
  | [] => Some []
  | v :: rest =>
      match asString v, asStrings rest with
      | Some s, Some l => Some (s :: l)
      | _, _ => None
      end
  end.

(** The three field validators.  The outer [option] is validation success,
    the inner one the optional value: [.optional()] accepts a missing key
    and nothing else besides the stated type (in particular not [null]). *)
Definition validateStop (v : option JSONValue) : option (option StopValue) :=
  match v with
  | None => Some None
  | Some (JString s) => Some (Some (StopString s))
  | Some (JArray items) => (fun l => Some (StopList l)) <$> asStrings items
  | Some _ => None
  end.

Definition validateSuffix (v : option JSONValue) : option (option string) :=
  match v with
  | None => Some None
  | Some (JString s) => Some (Some s)
  | Some _ => None
  end.

Definition validateMinToken (v : option JSONValue) : option (option Z) :=
  match v with
  | None => Some None
  | Some (JNumber n) => Some (Some n)
  | Some _ => None
  end.

(** [mistralFimProviderOptions]: a [z.object] of three optional fields;
    keys it does not name are dropped. *)
Definition mistralFimProviderOptions (entry : gmap string JSONValue)
  : option Options.t :=
  stop ← validateStop (entry !! "stop");
  suffix ← validateSuffix (entry !! "suffix");
  min_token ← validateMinToken (entry !! "min_token");
  Some (Options.mk stop suffix min_token).

(** [parseProviderOptions] of the provider utilities: no entry for the
    provider gives [undefined]; an entry is validated against the schema and
    a validation failure is thrown as an invalid-argument error. *)
Definition parseProviderOptions (provider : string)
    (providerOptions : option ProviderOptions) : Result (option Options.t) :=
  match providerOptions ≫= (fun bag => bag !! provider) with
  | None => Ok None
  | Some entry =>
      match mistralFimProviderOptions entry with
      | Some parsed => Ok (Some parsed)
      | None => Throw (InvalidArgumentError "providerOptions")
      end
  end.

(** ** Wire request *)

Module Args.
Record t : Type := mk {
  model : string;
  temperature : option Z;
  top_p : option Z;
  max_tokens : option Z;
  stop : option StopValue;
  random_seed : option Z;
  prompt : string;
  suffix : option string;
  min_tokens : option Z
}.
End Args.

(** The JSON body handed to the transport: [args] in doGenerate,
    [{ ...args, stream: true }] in doStream. *)
Record RequestBody : Type := {
  body_args : Args.t;
  body_stream : option bool
}.

(** ** Wire responses (the two zod schemas) *)

Inductive ImageUrl : Type :=
| ImageUrlString (url : string)
| ImageUrlObject (url : string) (detail : option string).

Inductive MistralContentPart : Type :=
| PartText (text : string)
| PartImageUrl (image_url : ImageUrl)
| PartReference (reference_ids : list Z)
| PartThinking (thinking : list string).

(** [mistralContentSchema]: [string | array of parts], nullish. *)
Inductive MistralContent : Type :=
| ContentString (s : string)
| ContentParts (parts : list MistralContentPart)
| ContentNull
| ContentUndefined.

Record ToolCall : Type := {
  tool_call_id : string;
  function_name : string;
  function_arguments : string
}.

Record MistralUsage : Type := {
  prompt_tokens : Z;
  completion_tokens : Z;
  total_tokens : Z
}.

Module ChatResponse.
Record message_t : Type := mkMessage {
  content : MistralContent;            (* role is the literal 'assistant' *)
  tool_calls : option (list ToolCall)
}.
Record choice_t : Type := mkChoice {
  message : message_t;
  index : Z;
  finish_reason : option string
}.
Record t : Type := mk {
  id : option string;
  created : option Z;
  model : option string;
  choices : list choice_t;             (* object is 'chat.completion' *)
  usage : MistralUsage
}.
End ChatResponse.

Module ChatChunk.
Record delta_t : Type := mkDelta {
  role : option unit;                  (* z.enum(['assistant']).optional() *)
  content : MistralContent;
  tool_calls : option (list ToolCall)
}.
Record choice_t : Type := mkChoice {
  delta : delta_t;
  finish_reason : option string;
  index : Z
}.
Record t : Type := mk {
  id : option string;
  created : option Z;
  model : option string;
  choices : list choice_t;
  usage : option MistralUsage
}.
End ChatChunk.

(** [ParseResult<chunk>] as delivered by the event-source handler. *)
Inductive ParseResult : Type :=
| ParseSuccess (value : ChatChunk.t) (rawValue : JSONValue)
| ParseFailure (error : string) (rawValue : JSONValue).

Definition rawValueOf (chunk : ParseResult) : JSONValue :=
  match chunk with
  | ParseSuccess _ raw => raw
  | ParseFailure _ raw => raw
  end.

(** ** Normalized results and stream parts *)

Inductive LanguageModelV2FinishReason : Type :=
| FinishStop
| FinishLength
| FinishContentFilter
| FinishToolCalls
| FinishError
| FinishOther
| FinishUnknown.

Record LanguageModelV2Usage : Type := mkUsage {
  inputTokens : option Z;
  outputTokens : option Z;
  totalTokens : option Z
}.

Inductive LanguageModelV2Content : Type :=
| ContentText (text : string).

Record ResponseMetadata : Type := mkMetadata {
  meta_id : option string;
  meta_modelId : option string;
  meta_timestamp : option Z              (* milliseconds since the epoch *)
}.

Inductive LanguageModelV2StreamPart : Type :=
| StreamStart (warnings : list LanguageModelV2CallWarning)
| RawPart (rawValue : JSONValue)
| ErrorPart (error : string)
| ResponseMetadataPart (metadata : ResponseMetadata)
| TextStart (id : string)
| TextDelta (id delta : string)
| TextEnd (id : string)
| FinishPart (finishReason : LanguageModelV2FinishReason)
             (usage : LanguageModelV2Usage).

(** ** Helpers of the repository that are imported by the model file *)

(** Modelled from the spec: [mapMistralFinishReason]
    (./map-mistral-finish-reason), after the finish-reason table:
    "stop" gives stop; "length" and "model_length" give length; "error"
    gives error; anything else, null and absent included, gives unknown. *)
Definition mapMistralFinishReason (finishReason : option string)
  : LanguageModelV2FinishReason :=
  match finishReason with
  | Some "stop" => FinishStop
  | Some "length" | Some "model_length" => FinishLength
  | Some "error" => FinishError
  | _ => FinishUnknown
  end.

(** Modelled from the spec: [getResponseMetadata]
    (./get-response-metadata): id, model name and creation time are passed
    through, the time converted from epoch seconds to an absolute
    timestamp; each is undefined when absent on the wire. *)
Definition getResponseMetadata (id model : option string) (created : option Z)
  : ResponseMetadata :=
  mkMetadata id model ((fun seconds => (seconds * 1000)%Z) <$> created).

(** ** extractTextContent *)

(** The text pushed for one part of the content array by the [switch]. *)
Definition partText (chunk : MistralContentPart) : option string :=
  match chunk with
  | PartText text => Some text
  | PartThinking _ | PartImageUrl _ | PartReference _ => None
  end.

(** [Array.prototype.join('')]. *)
Definition join (l : list string) : string := String.concat "" l.

Definition extractTextContent (content : MistralContent) : option string :=
  match content with
  | ContentString s => Some s
  | ContentNull | ContentUndefined => None
  | ContentParts parts =>
      let textContent := omap partText parts in
      if bool_decide (length textContent = 0) then None
      else Some (join textContent)
  end.

(** ** extractUserPromptContent *)

(** The inner loop: the first part of type 'text' of one message. *)
Fixpoint firstTextPart (content : list UserContentPart) : option string :=
  match content with
  | [] => None
  | UserText text :: _ => Some text
  | UserFile _ _ _ :: rest => firstTextPart rest
  end.

Fixpoint extractUserPromptContent (prompt : list Message) : option string :=
  match prompt with
  | [] => None
  | UserMessage content :: rest =>
      match firstTextPart content with
      | Some text => Some text
      | None => extractUserPromptContent rest
      end
  | _ :: rest => extractUserPromptContent rest
  end.

(** ** The model object *)

Record MistralChatConfig : Type := {
  provider : string;
  baseURL : string;
  (* the outcome of calling [headers()], which loads the API key *)
  config_headers : Result Headers
}.

Record MistralFimLanguageModel : Type := {
  modelId : string;
  config : MistralChatConfig
}.

(** One warning when the setting is not null or undefined. *)
Definition warnUnsupported {A} (value : option A) (setting : string)
  : list LanguageModelV2CallWarning :=
  match value with
  | Some _ => [UnsupportedSetting setting]
  | None => []
  end.

Definition getArgs (this : MistralFimLanguageModel) (options : Call.t)
  : Result (Args.t * list LanguageModelV2CallWarning) :=
  parsed ← parseProviderOptions (provider (config this))
                                (Call.providerOptions options);
  let opts := default Options.empty parsed in
  let warnings :=
    warnUnsupported (Call.topK options) "topK"
    ++ warnUnsupported (Call.frequencyPenalty options) "frequencyPenalty"
    ++ warnUnsupported (Call.presencePenalty options) "presencePenalty"
    ++ warnUnsupported (Call.stopSequences options) "stopSequences"
    ++ warnUnsupported (Call.responseFormat options) "responseFormat"
    ++ warnUnsupported (Call.tools options) "tools"
    ++ warnUnsupported (Call.toolChoice options) "toolChoice" in
  (* [!prefix]: undefined, or the empty string *)
  match extractUserPromptContent (Call.prompt options) with
  | None => Throw EmptyPromptError
  | Some prefix =>
      if bool_decide (prefix = "") then Throw EmptyPromptError
      else
        let args := {|
          Args.model := modelId this;
          Args.temperature := Call.temperature options;
          Args.top_p := Call.topP options;
          Args.max_tokens := Call.maxOutputTokens options;
          Args.stop := Options.stop opts;
          Args.random_seed := Call.seed options;
          Args.prompt := prefix;
          Args.suffix := Options.suffix opts;
          Args.min_tokens := Options.min_token opts
        |} in
        Ok (args, warnings)
  end.

(** ** The transport and the effect monad *)

Record PostedRequest : Type := {
  post_url : string;
  post_headers : Headers;
  post_body : RequestBody
}.

Record JsonResponse : Type := {
  json_responseHeaders : Headers;
  json_value : ChatResponse.t;
  json_rawValue : JSONValue
}.

Record EventSourceResponse : Type := {
  sse_responseHeaders : Headers;
  sse_value : list ParseResult
}.

(** What the endpoint answers, after the response handlers: a value that
    passed the schema, or the rejection of the call. *)
Record Transport : Type := {
  jsonHandler : PostedRequest -> Result JsonResponse;
  eventSourceHandler : PostedRequest -> Result EventSourceResponse
}.

(** Computations that may throw and that log the requests they dispatch. *)
Definition M (A : Type) : Type :=
  list PostedRequest -> Result A * list PostedRequest.

#[global] Instance M_ret : MRet M := fun _ a log => (Ok a, log).
#[global] Instance M_bind : MBind M := fun _ _ f m log =>
  match m log with
  | (Ok a, log') => f a log'
  | (Throw e, log') => (Throw e, log')
  end.

Definition liftResult {A} (r : Result A) : M A := fun log => (r, log).
Definition throw {A} (e : Exception) : M A := liftResult (Throw e).

Definition postJsonToApi {A} (handler : PostedRequest -> Result A)
    (request : PostedRequest) : M A :=
  fun log => (handler request, log ++ [request]).

(** [{ ...a, ...b }]: the later object wins. *)
Definition combineHeaders (a : Headers) (b : option Headers) : Headers :=
  default ∅ b ∪ a.

(** ** doGenerate *)

Module GenerateResult.
Record t : Type := mk {
  content : list LanguageModelV2Content;
  finishReason : LanguageModelV2FinishReason;
  usage : LanguageModelV2Usage;
  request_body : RequestBody;
  response_metadata : ResponseMetadata;
  response_headers : Headers;
  response_body : JSONValue;
  warnings : list LanguageModelV2CallWarning
}.
End GenerateResult.

(** The item pushed for one part of an array content. *)
Definition partContent (part : MistralContentPart)
  : option LanguageModelV2Content :=
  match part with
  | PartText text =>
      if bool_decide (0 < String.length text) then Some (ContentText text)
      else None
  | _ => None
  end.

(** The [content] array built from [choice.message.content]. *)
Definition generateContent (content : MistralContent)
  : list LanguageModelV2Content :=
  match content with
  | ContentParts parts => omap partContent parts
  | _ =>
      match extractTextContent content with
      | Some text =>
          if bool_decide (0 < String.length text) then [ContentText text]
          else []
      | None => []
      end
  end.

(** The POST to [`${baseURL}/fim/completions`] with the merged headers. *)
Definition fimCompletionsRequest (this : MistralFimLanguageModel)
    (configured : Headers) (options : Call.t) (body : RequestBody)
  : PostedRequest :=
  {| post_url := baseURL (config this) +:+ "/fim/completions";
     post_headers := combineHeaders configured (Call.headers options);
     post_body := body |}.

Definition doGenerate (this : MistralFimLanguageModel) (net : Transport)
    (options : Call.t) : M GenerateResult.t :=
  '(args, warnings) ← liftResult (getArgs this options);
  let body := {| body_args := args; body_stream := None |} in
  configured ← liftResult (config_headers (config this));
  answer ← postJsonToApi (jsonHandler net)
             (fimCompletionsRequest this configured options body);
  let response := json_value answer in
  match ChatResponse.choices response !! 0 with
  | None => throw TypeError          (* [choice.message] on undefined *)
  | Some choice =>
      mret {|
        GenerateResult.content :=
          generateContent
            (ChatResponse.content (ChatResponse.message choice));
        GenerateResult.finishReason :=
          mapMistralFinishReason (ChatResponse.finish_reason choice);
        GenerateResult.usage :=
          let wire := ChatResponse.usage response in
          mkUsage (Some (prompt_tokens wire))
                  (Some (completion_tokens wire))
                  (Some (total_tokens wire));
        GenerateResult.request_body := body;
        GenerateResult.response_metadata :=
          getResponseMetadata (ChatResponse.id response)
                              (ChatResponse.model response)
                              (ChatResponse.created response);
        GenerateResult.response_headers := json_responseHeaders answer;
        GenerateResult.response_body := json_rawValue answer;
        GenerateResult.warnings := warnings
      |}
  end.

(** ** doStream *)

Module StreamState.
Record t : Type := mk {
  finishReason : LanguageModelV2FinishReason;
  usage : LanguageModelV2Usage;
  isFirstChunk : bool;
  activeText : bool
}.
(* the four variables as doStream declares them *)
Definition initial : t :=
  mk FinishUnknown (mkUsage None None None) true false.
End StreamState.

(** What one call of [transform] did: the parts it enqueued and the state
    it left, or the parts enqueued before it threw. *)
Inductive TransformResult : Type :=
| Enqueued (parts : list LanguageModelV2StreamPart) (st : StreamState.t)
| Failed (parts : list LanguageModelV2StreamPart) (e : Exception).

Definition transform (includeRawChunks : option bool) (st : StreamState.t)
    (chunk : ParseResult) : TransformResult :=
  let raw :=
    if default false includeRawChunks then [RawPart (rawValueOf chunk)]
    else [] in
  match chunk with
  | ParseFailure error _ => Enqueued (raw ++ [ErrorPart error]) st
  | ParseSuccess value _ =>
      let metadata :=
        if StreamState.isFirstChunk st
        then [ResponseMetadataPart
                (getResponseMetadata (ChatChunk.id value)
                                     (ChatChunk.model value)
                                     (ChatChunk.created value))]
        else [] in
      let usage :=
        match ChatChunk.usage value with
        | Some wire =>
            mkUsage (Some (prompt_tokens wire))
                    (Some (completion_tokens wire))
                    (Some (total_tokens wire))
        | None => StreamState.usage st
        end in
      match ChatChunk.choices value !! 0 with
      | None => Failed (raw ++ metadata) TypeError  (* [choice.delta] *)
      | Some choice =>
          let textContent :=
            extractTextContent (ChatChunk.content (ChatChunk.delta choice)) in
          let '(text, activeText) :=
            match textContent with
            | Some textContent =>
                if bool_decide (0 < String.length textContent)
                then ((if StreamState.activeText st then []
                       else [TextStart "0"])
                      ++ [TextDelta "0" textContent], true)
                else ([], StreamState.activeText st)
            | None => ([], StreamState.activeText st)
            end in
          let finishReason :=
            match ChatChunk.finish_reason choice with
            | Some reason => mapMistralFinishReason (Some reason)
            | None => StreamState.finishReason st
            end in
          Enqueued (raw ++ metadata ++ text)
                   (StreamState.mk finishReason usage false activeText)
      end
  end.

Definition flush (st : StreamState.t) : list LanguageModelV2StreamPart :=
  (if StreamState.activeText st then [TextEnd "0"] else [])
  ++ [FinishPart (StreamState.finishReason st) (StreamState.usage st)].

(** The chunks are transformed in order; a throw inside [transform] errors
    the stream, and nothing after it runs. *)
Fixpoint transformAll (includeRawChunks : option bool) (st : StreamState.t)
    (chunks : list ParseResult)
  : list LanguageModelV2StreamPart * Result StreamState.t :=
  match chunks with
  | [] => ([], Ok st)
  | chunk :: rest =>
      match transform includeRawChunks st chunk with
      | Enqueued parts st' =>
          let '(later, final) := transformAll includeRawChunks st' rest in
          (parts ++ later, final)
      | Failed parts e => (parts, Throw e)
      end
  end.

(** The readable side as a consumer that reads it to its end observes it:
    closed after [flush], or errored.  [Errored] lists the parts enqueued
    before the error; a slow reader may lose the ones still queued. *)
Inductive StreamOutcome : Type :=
| Closed (parts : list LanguageModelV2StreamPart)
| Errored (parts : list LanguageModelV2StreamPart) (e : Exception).

(** [response.pipeThrough(new TransformStream({ start, transform, flush }))]. *)
Definition pipeThrough (warnings : list LanguageModelV2CallWarning)
    (includeRawChunks : option bool) (response : list ParseResult)
  : StreamOutcome :=
  let start := [StreamStart warnings] in
  match transformAll includeRawChunks StreamState.initial response with
  | (parts, Ok st) => Closed (start ++ parts ++ flush st)
  | (parts, Throw e) => Errored (start ++ parts) e
  end.

Module StreamResult.
Record t : Type := mk {
  stream : StreamOutcome;
  request_body : RequestBody;
  response_headers : Headers
}.
End StreamResult.

Definition doStream (this : MistralFimLanguageModel) (net : Transport)
    (options : Call.t) : M StreamResult.t :=
  '(args, warnings) ← liftResult (getArgs this options);
  let body := {| body_args := args; body_stream := Some true |} in
  configured ← liftResult (config_headers (config this));
  answer ← postJsonToApi (eventSourceHandler net)
             (fimCompletionsRequest this configured options body);
  mret {|
    StreamResult.stream :=
      pipeThrough warnings (Call.includeRawChunks options) (sse_value answer);
    StreamResult.request_body := body;
    StreamResult.response_headers := sse_responseHeaders answer
  |}.

(** ** Observations used to state the properties *)

(** The text of a normalized content array: its text items, in order. *)
Definition itemText (item : LanguageModelV2Content) : string :=
  match item with
  | ContentText text => text
  end.

Definition contentText (content : list LanguageModelV2Content) : string :=
  join (itemText <$> content).

Definition deltaOf (part : LanguageModelV2StreamPart) : option string :=
  match part with
  | TextDelta _ delta => Some delta
  | _ => None
  end.

(** The deltas of the text-delta parts of a part sequence, in order. *)
Definition textDeltas (parts : list LanguageModelV2StreamPart) : list string :=
  omap deltaOf parts.

Definition enqueuedBy (r : TransformResult) : list LanguageModelV2StreamPart :=
  match r with
  | Enqueued parts _ => parts
  | Failed parts _ => parts
  end.

(** The text [transform] extracts from a delta, undefined read as no text. *)
Definition deltaText (content : MistralContent) : string :=
  default "" (extractTextContent content).

(** The raw part of one chunk, when raw passthrough is requested. *)
Definition rawParts (includeRawChunks : option bool) (chunk : ParseResult)
  : list LanguageModelV2StreamPart :=
  if default false includeRawChunks then [RawPart (rawValueOf chunk)] else [].

(** The response-metadata part of the first successfully parsed chunk. *)
Definition metadataParts (st : StreamState.t) (value : ChatChunk.t)
  : list LanguageModelV2StreamPart :=
  if StreamState.isFirstChunk st
  then [ResponseMetadataPart
          (getResponseMetadata (ChatChunk.id value) (ChatChunk.model value)
                               (ChatChunk.created value))]
  else [].

(** The text parts for an extracted text, given whether a span is open. *)
Definition textParts (active : bool) (text : string)
  : list LanguageModelV2StreamPart :=
  if bool_decide (text = "") then []
  else (if active then [] else [TextStart "0"]) ++ [TextDelta "0" text].

Definition usageOfWire (wire : MistralUsage) : LanguageModelV2Usage :=
  mkUsage (Some (prompt_tokens wire)) (Some (completion_tokens wire))
          (Some (total_tokens wire)).

(** The first message with role user, if there is one. *)
Fixpoint firstUserMessage (prompt : list Message)
  : option (list UserContentPart) :=
  match prompt with
  | [] => None
  | UserMessage content :: _ => Some content
  | _ :: rest => firstUserMessage rest
  end.

(** No user message of the prompt has a part of type text. *)
Definition noUserText (prompt : list Message) : Prop :=
  forall content text,
    UserMessage content ∈ prompt -> UserText text ∉ content.

(** How often the warning for one setting occurs. *)
Definition occurrences (setting : string)
    (warnings : list LanguageModelV2CallWarning) : nat :=
  length (filter (fun w => w = UnsupportedSetting setting) warnings).

Definition supplied {A} (value : option A) : nat :=
  match value with
  | Some _ => 1
  | None => 0
  end.

(** The call with its seven unsupported generic settings replaced. *)
Definition withGenericSettings (options : Call.t)
    (topK frequencyPenalty presencePenalty : option Z)
    (stopSequences : option (list string))
    (responseFormat : option ResponseFormat)
    (tools : option (list ToolSpec)) (toolChoice : option ToolChoice)
  : Call.t :=
  {| Call.prompt := Call.prompt options;
     Call.maxOutputTokens := Call.maxOutputTokens options;
     Call.temperature := Call.temperature options;
     Call.topP := Call.topP options;
     Call.topK := topK;
     Call.frequencyPenalty := frequencyPenalty;
     Call.presencePenalty := presencePenalty;
     Call.stopSequences := stopSequences;
     Call.responseFormat := responseFormat;
     Call.seed := Call.seed options;
     Call.providerOptions := Call.providerOptions options;
     Call.tools := tools;
     Call.toolChoice := toolChoice;
     Call.includeRawChunks := Call.includeRawChunks options;
     Call.headers := Call.headers options |}.

(** The first choice of a chunk that parsed. *)
Definition firstChoice (chunk : ParseResult) : option ChatChunk.choice_t :=
  match chunk with
  | ParseSuccess value _ => ChatChunk.choices value !! 0
  | ParseFailure _ _ => None
  end.

(** A successfully parsed delta chunk: it parsed and it carries a delta. *)
Definition isDeltaChunk (chunk : ParseResult) : Prop :=
  is_Some (firstChoice chunk).

(** The text extracted from the delta of a chunk. *)
Definition chunkText (chunk : ParseResult) : string :=
  match firstChoice chunk with
  | Some choice => deltaText (ChatChunk.content (ChatChunk.delta choice))
  | None => ""
  end.

(** A chunk that parsed and whose choices list is empty. *)
Definition lacksChoice (chunk : ParseResult) : Prop :=
  match chunk with
  | ParseSuccess value _ => ChatChunk.choices value = []
  | ParseFailure _ _ => False
  end.

(** The usage record of a chunk that parsed, if it carries one. *)
Definition chunkUsage (chunk : ParseResult) : option MistralUsage :=
  match chunk with
  | ParseSuccess value _ => ChatChunk.usage value
  | ParseFailure _ _ => None
  end.

(** The last usage record seen on the parsed chunks, as normalized usage;
    all three counters undefined when there was none. *)
Definition lastUsage (chunks : list ParseResult) : LanguageModelV2Usage :=
  match last (omap chunkUsage chunks) with
  | Some wire => usageOfWire wire
  | None => mkUsage None None None
  end.

Definition isFinishPart (part : LanguageModelV2StreamPart) : Prop :=
  match part with
  | FinishPart _ _ => True
  | _ => False
  end.

(** The parts that bracket and carry text, and the finish part. *)
Definition isSpanPart (part : LanguageModelV2StreamPart) : bool :=
  match part with
  | TextStart _ | TextDelta _ _ | TextEnd _ | FinishPart _ _ => true
  | _ => false
  end.

(** A part sequence with everything but those parts left out. *)
Definition textSpan (parts : list LanguageModelV2StreamPart)
  : list LanguageModelV2StreamPart :=
  filter (fun part => isSpanPart part) parts.

(** ** Fixtures, after the test suite of the model *)

Definition testModel : MistralFimLanguageModel :=
  {| modelId := "mistral-small-latest";
     config := {| provider := "mistral.fim";
                  baseURL := "https://api.mistral.ai/v1";
                  config_headers :=
                    Ok {[ "Authorization" := "Bearer test-api-key" ]} |} |}.

Definition TEST_PROMPT : list Message := [UserMessage [UserText "Hello"]].

(** A call that sets nothing but the prompt. *)
Definition callWithPrompt (prompt : list Message) : Call.t :=
  {| Call.prompt := prompt;
     Call.maxOutputTokens := None; Call.temperature := None;
     Call.topP := None; Call.topK := None;
     Call.frequencyPenalty := None; Call.presencePenalty := None;
     Call.stopSequences := None; Call.responseFormat := None;
     Call.seed := None; Call.providerOptions := None;
     Call.tools := None; Call.toolChoice := None;
     Call.includeRawChunks := None; Call.headers := None |}.

(** A server that answers every request with the same document, or with
    the same chunks. *)
Definition testServer (response : ChatResponse.t) (chunks : list ParseResult)
  : Transport :=
  {| jsonHandler := fun _ =>
       Ok {| json_responseHeaders := ∅; json_value := response;
             json_rawValue := JNull |};
     eventSourceHandler := fun _ =>
       Ok {| sse_responseHeaders := ∅; sse_value := chunks |} |}.

Definition jsonResponse (choices : list ChatResponse.choice_t)
    (usage : MistralUsage) : ChatResponse.t :=
  ChatResponse.mk (Some "16362f24e60340d0994dd205c267a43a")
                  (Some 1711113008%Z) (Some "mistral-small-latest")
                  choices usage.

Definition jsonChoice (content : MistralContent) : ChatResponse.choice_t :=
  ChatResponse.mkChoice (ChatResponse.mkMessage content None) 0 (Some "stop").

(** One chunk of the streaming fixture. *)
Definition testChunk (content : MistralContent) (finish_reason : option string)
    (usage : option MistralUsage) : ParseResult :=
  ParseSuccess
    (ChatChunk.mk (Some "53ff663126294946a6b7a4747b70597e")
                  (Some 1750537996%Z) (Some "mistral-small-latest")
                  [ChatChunk.mkChoice
                     (ChatChunk.mkDelta (Some ()) content None)
                     finish_reason 0]
                  usage)
    JNull.

(** A chunk that passes the chunk schema with an empty [choices] array. *)
Definition chunkWithoutChoices (usage : option MistralUsage) : ParseResult :=
  ParseSuccess
    (ChatChunk.mk (Some "53ff663126294946a6b7a4747b70597e")
                  (Some 1750537996%Z) (Some "mistral-small-latest")
                  [] usage)
    JNull.

Definition testUsage : MistralUsage :=
  {| prompt_tokens := 4; completion_tokens := 32; total_tokens := 36 |}.

(** The chunks of [prepareStreamResponse]: an empty first delta, one delta
    per text, and a closing chunk with the finish reason and the usage. *)
Definition prepareStreamResponse (content : list string) : list ParseResult :=
  testChunk (ContentString "") None None
  :: ((fun text => testChunk (ContentString text) None None) <$> content)
  ++ [testChunk (ContentString "") (Some "stop") (Some testUsage)].

(** A user message that holds a file and no text. *)
Definition fileOnlyMessage : Message :=
  UserMessage [UserFile (Some "diagram.png") "iVBORw0KGgo=" "image/png"].

(** A call whose option bag for this provider has a number as suffix. *)
Definition callWithBadSuffix (prompt : list Message) : Call.t :=
  {| Call.prompt := prompt;
     Call.maxOutputTokens := None; Call.temperature := None;
     Call.topP := None; Call.topK := None;
     Call.frequencyPenalty := None; Call.presencePenalty := None;
     Call.stopSequences := None; Call.responseFormat := None;
     Call.seed := None;
     Call.providerOptions :=
       Some {[ "mistral.fim" := {[ "suffix" := JNumber 42 ]} ]};
     Call.tools := None; Call.toolChoice := None;
     Call.includeRawChunks := None; Call.headers := None |}.

(** ** The provider factory (createMistralFim) *)

Record MistralProviderSettings : Type := {
  settings_baseURL : option string;
  settings_apiKey : option string;
  settings_headers : option Headers
}.

(** [url.replace(/\/$/, '')]: one slash at the very end is removed. *)
Fixpoint dropTrailingSlash (url : string) : string :=
  match url with
  | "" => ""
  | "/" => ""
  | String c rest => String c (dropTrailingSlash rest)
  end.

(** [withoutTrailingSlash] of the provider utilities, [url?.replace(...)]. *)
Definition withoutTrailingSlash (url : option string) : option string :=
  dropTrailingSlash <$> url.

(** [loadApiKey] of the provider utilities: the key of the settings when
    there is one, else the environment variable MISTRAL_API_KEY, else a
    load-API-key error. *)
Definition loadApiKey (apiKey environment : option string) : Result string :=
  match apiKey with
  | Some key => Ok key
  | None =>
      match environment with
      | Some key => Ok key
      | None => Throw LoadAPIKeyError
      end
  end.

(** [getHeaders]: the Authorization entry, then the custom headers spread
    over it.  It runs when a request is prepared, in the environment of
    that moment. *)
Definition getHeaders (settings : MistralProviderSettings)
    (environment : option string) : Result Headers :=
  key ← loadApiKey (settings_apiKey settings) environment;
  mret (default ∅ (settings_headers settings)
        ∪ {[ "Authorization" := "Bearer " +:+ key ]}).

Definition createFimModel (settings : MistralProviderSettings)
    (environment : option string) (modelId : string)
  : MistralFimLanguageModel :=
  {| modelId := modelId;
     config :=
       {| provider := "mistral.fim";
          baseURL := default "https://api.mistral.ai/v1"
                             (withoutTrailingSlash (settings_baseURL settings));
          config_headers := getHeaders settings environment |} |}.

(** ** Further observations *)

Definition partsOf (outcome : StreamOutcome)
  : list LanguageModelV2StreamPart :=
  match outcome with
  | Closed parts => parts
  | Errored parts _ => parts
  end.


Definition metadataOf (part : LanguageModelV2StreamPart)
  : option ResponseMetadata :=
  match part with
  | ResponseMetadataPart metadata => Some metadata
  | _ => None
  end.


Definition startOf (part : LanguageModelV2StreamPart)
  : option (list LanguageModelV2CallWarning) :=
  match part with
  | StreamStart warnings => Some warnings
  | _ => None
  end.


(** The value of a chunk that parsed. *)
Definition parsedValue (chunk : ParseResult) : option ChatChunk.t :=
  match chunk with
  | ParseSuccess value _ => Some value
  | ParseFailure _ _ => None
  end.

Definition metadataOfChunk (value : ChatChunk.t) : ResponseMetadata :=
  getResponseMetadata (ChatChunk.id value) (ChatChunk.model value)
                      (ChatChunk.created value).

(** The finish reason on the first choice of a chunk, when not null. *)
Definition chunkFinishReason (chunk : ParseResult) : option string :=
  firstChoice chunk ≫= ChatChunk.finish_reason.

(** The state [transform] leaves after a parsed chunk with a first choice. *)
Definition advance (st : StreamState.t) (value : ChatChunk.t)
    (choice : ChatChunk.choice_t) : StreamState.t :=
  StreamState.mk
    (match ChatChunk.finish_reason choice with
     | Some reason => mapMistralFinishReason (Some reason)
     | None => StreamState.finishReason st
     end)
    (match ChatChunk.usage value with
     | Some wire => usageOfWire wire
     | None => StreamState.usage st
     end)
    false
    (StreamState.activeText st
     || negb (bool_decide
                (deltaText (ChatChunk.content (ChatChunk.delta choice)) = ""))).

(** A request with the streaming flag set in its body. *)
Definition asStreaming (request : PostedRequest) : PostedRequest :=
  {| post_url := post_url request;
     post_headers := post_headers request;
     post_body := {| body_args := body_args (post_body request);
                     body_stream := Some true |} |}.

(** The option bag entry that spells out a parsed option record. *)
Definition encodeStop (stop : StopValue) : JSONValue :=
  match stop with
  | StopString s => JString s
  | StopList l => JArray (JString <$> l)
  end.

Definition encodeOptions (o : Options.t) : gmap string JSONValue :=
  list_to_map
    (omap id
       [ (fun v => ("stop", encodeStop v)) <$> Options.stop o;
         (fun v => ("suffix", JString v)) <$> Options.suffix o;
         (fun v => ("min_token", JNumber v)) <$> Options.min_token o ]).

Definition isUserMessage (message : Message) : bool :=
  match message with
  | UserMessage _ => true
  | _ => false
  end.

Definition isTextPart (part : MistralContentPart) : bool :=
  match part with
  | PartText _ => true
  | _ => false
  end.

(** The seven unsupported settings, in the order getArgs tests them. *)
Definition unsupportedSettings : list LanguageModelV2CallWarning :=
  UnsupportedSetting
  <$> ["topK"; "frequencyPenalty"; "presencePenalty"; "stopSequences";
       "responseFormat"; "tools"; "toolChoice"].

(** The call with another option bag, and the call with another prompt. *)
Definition withProviderOptions (options : Call.t)
    (providerOptions : option ProviderOptions) : Call.t :=
  {| Call.prompt := Call.prompt options;
     Call.maxOutputTokens := Call.maxOutputTokens options;
     Call.temperature := Call.temperature options;
     Call.topP := Call.topP options;
     Call.topK := Call.topK options;
     Call.frequencyPenalty := Call.frequencyPenalty options;
     Call.presencePenalty := Call.presencePenalty options;
     Call.stopSequences := Call.stopSequences options;
     Call.responseFormat := Call.responseFormat options;
     Call.seed := Call.seed options;
     Call.providerOptions := providerOptions;
     Call.tools := Call.tools options;
     Call.toolChoice := Call.toolChoice options;
     Call.includeRawChunks := Call.includeRawChunks options;
     Call.headers := Call.headers options |}.

Definition withPrompt (options : Call.t) (prompt : list Message) : Call.t :=
  {| Call.prompt := prompt;
     Call.maxOutputTokens := Call.maxOutputTokens options;
     Call.temperature := Call.temperature options;
     Call.topP := Call.topP options;
     Call.topK := Call.topK options;
     Call.frequencyPenalty := Call.frequencyPenalty options;
     Call.presencePenalty := Call.presencePenalty options;
     Call.stopSequences := Call.stopSequences options;
     Call.responseFormat := Call.responseFormat options;
     Call.seed := Call.seed options;
     Call.providerOptions := Call.providerOptions options;
     Call.tools := Call.tools options;
     Call.toolChoice := Call.toolChoice options;
     Call.includeRawChunks := Call.includeRawChunks options;
     Call.headers := Call.headers options |}.

Definition isRawPart (part : LanguageModelV2StreamPart) : bool :=
  match part with
  | RawPart _ => true
  | _ => false
  end.

(** A part sequence with its raw parts left out. *)
Definition withoutRaw (parts : list LanguageModelV2StreamPart)
  : list LanguageModelV2StreamPart :=
  filter (fun part => ~ isRawPart part) parts.

Definition withoutRawOutcome (outcome : StreamOutcome) : StreamOutcome :=
  match outcome with
  | Closed parts => Closed (withoutRaw parts)
  | Errored parts e => Errored (withoutRaw parts) e
  end.

(** A server that answers every JSON request with the given document. *)
Definition answering (answer : JsonResponse) : Transport :=
  {| jsonHandler := fun _ => Ok answer;
     eventSourceHandler := fun _ => Throw (APICallError "not a stream") |}.

Definition isUserText (part : UserContentPart) : bool :=
  match part with
  | UserText _ => true
  | UserFile _ _ _ => false
  end.

(** A prompt reduced to its user messages, and those to their text parts. *)
Definition userTextOnly (prompt : list Message) : list Message :=
  omap (fun message =>
          match message with
          | UserMessage content =>
              Some (UserMessage (filter (fun part => isUserText part) content))
          | _ => None
          end)
       prompt.

(** Whether a URL ends with a slash. *)
Fixpoint endsWithSlash (url : string) : bool :=
  match url with
  | "" => false
  | "/" => true
  | String _ rest => endsWithSlash rest
  end.

(** * Properties *)

(** ** Strings *)

Lemma string_app_cons (a : Ascii.ascii) (s t : string) :
  String a s +:+ t = String a (s +:+ t).
Proof. reflexivity. Qed.

Lemma string_app_empty_r (s : string) : s +:+ "" = s.
Proof.
  induction s as [|a s IH]; [reflexivity|].
  by rewrite string_app_cons, IH.
Qed.

Lemma join_cons (s : string) (l : list string) : join (s :: l) = s +:+ join l.
Proof.
  unfold join. destruct l as [|t l].
  - change (s = s +:+ ""). by rewrite string_app_empty_r.
  - reflexivity.
Qed.

Lemma join_empty_prefix (s : string) (l : list string) :
  s = "" -> join (s :: l) = join l.
Proof. intros ->. by rewrite join_cons. Qed.

(** ** Content flattening *)

(** The array branch of doGenerate keeps the non-empty text parts; joined,
    they are the text parts joined. *)
Lemma contentText_parts (parts : list MistralContentPart) :
  contentText (omap partContent parts) = join (omap partText parts).
Proof.
  unfold contentText.
  induction parts as [|part parts IH]; [reflexivity|].
  destruct part as [text| | |]; simpl; try exact IH.
  case_bool_decide as Hlen; simpl.
  - rewrite !join_cons. f_equal. exact IH.
  - rewrite join_empty_prefix; [exact IH|].
    destruct text; [reflexivity | simpl in Hlen; lia].
Qed.

Lemma partContent_none (parts : list MistralContentPart) :
  omap partText parts = [] -> omap partContent parts = [].
Proof.
  induction parts as [|part parts IH]; [reflexivity|].
  destruct part; simpl; try exact IH. discriminate.
Qed.

(** C8, the claim as stated fails on the empty string: flattening it gives
    the empty string, which is not undefined. *)
Lemma C8_empty_string_not_undefined :
  extractTextContent (ContentString "") = Some ""
  /\ extractTextContent (ContentString "") <> None.
Proof. split; [reflexivity | discriminate]. Qed.

(** ** One step of the stream transform *)

#[local] Arguments mapMistralFinishReason : simpl never.
#[local] Arguments getResponseMetadata : simpl never.

Lemma extracted_text_cases (content : MistralContent) :
  match extractTextContent content with
  | Some text => deltaText content = text
  | None => deltaText content = ""
  end.
Proof. unfold deltaText. by destruct (extractTextContent content). Qed.

(** A chunk that failed to parse: its raw part when requested, one error
    part, and the state as it was. *)
Lemma transform_failure includeRawChunks st error raw :
  transform includeRawChunks st (ParseFailure error raw)
  = Enqueued (rawParts includeRawChunks (ParseFailure error raw)
              ++ [ErrorPart error]) st.
Proof. reflexivity. Qed.

(** A parsed chunk with a first choice. *)
Lemma transform_success includeRawChunks st value raw choice rest :
  ChatChunk.choices value = choice :: rest ->
  let text := deltaText (ChatChunk.content (ChatChunk.delta choice)) in
  transform includeRawChunks st (ParseSuccess value raw)
  = Enqueued
      (rawParts includeRawChunks (ParseSuccess value raw)
       ++ metadataParts st value
       ++ textParts (StreamState.activeText st) text)
      (StreamState.mk
         (match ChatChunk.finish_reason choice with
          | Some reason => mapMistralFinishReason (Some reason)
          | None => StreamState.finishReason st
          end)
         (match ChatChunk.usage value with
          | Some wire => usageOfWire wire
          | None => StreamState.usage st
          end)
         false
         (StreamState.activeText st || negb (bool_decide (text = "")))).
Proof.
  intros Hchoices text. unfold transform. rewrite Hchoices. simpl.
  unfold text, deltaText, textParts, rawParts, metadataParts.
  destruct (extractTextContent _) as [t|]; simpl.
  - destruct t as [|a t]; simpl.
    + by rewrite orb_false_r.
    + by rewrite orb_true_r.
  - by rewrite orb_false_r.
Qed.

(** A parsed chunk with no choice: the read of [choice.delta] throws. *)
Lemma transform_no_choice includeRawChunks st value raw :
  ChatChunk.choices value = [] ->
  transform includeRawChunks st (ParseSuccess value raw)
  = Failed (rawParts includeRawChunks (ParseSuccess value raw)
            ++ metadataParts st value) TypeError.
Proof. intros Hchoices. unfold transform. by rewrite Hchoices. Qed.

Lemma textDeltas_app (a b : list LanguageModelV2StreamPart) :
  textDeltas (a ++ b) = textDeltas a ++ textDeltas b.
Proof. apply omap_app. Qed.

Lemma textDeltas_rawParts includeRawChunks chunk :
  textDeltas (rawParts includeRawChunks chunk) = [].
Proof. unfold rawParts. by destruct (default false includeRawChunks). Qed.

Lemma textDeltas_metadataParts st value :
  textDeltas (metadataParts st value) = [].
Proof. unfold metadataParts. by destruct (StreamState.isFirstChunk st). Qed.

Lemma textDeltas_textParts active text :
  join (textDeltas (textParts active text)) = text.
Proof.
  unfold textParts. case_bool_decide as Hempty; [by subst|].
  by destruct active.
Qed.

(** C8 (as amended): flattening a plain string returns that string
    unchanged, whether or not it is empty: the empty string comes back as
    the empty string, not as undefined.  It is the two callers that drop an
    empty text: doGenerate pushes no content item for it and [transform]
    enqueues no text part for it. *)
Theorem C8_flatten_string_unchanged (s : string) :
  extractTextContent (ContentString s) = Some s
  /\ generateContent (ContentString s)
     = (if bool_decide (s = "") then [] else [ContentText s])
  /\ forall includeRawChunks st id created model role tool_calls
            finish_reason index rest usage raw,
      let choice :=
        ChatChunk.mkChoice
          (ChatChunk.mkDelta role (ContentString s) tool_calls)
          finish_reason index in
      let value := ChatChunk.mk id created model (choice :: rest) usage in
      textDeltas
        (enqueuedBy (transform includeRawChunks st (ParseSuccess value raw)))
      = (if bool_decide (s = "") then [] else [s]).
Proof.
  split; [reflexivity|]. split.
  - simpl. destruct s as [|a s]; [reflexivity|].
    rewrite bool_decide_eq_true_2 by (simpl; lia).
    by rewrite bool_decide_eq_false_2.
  - intros inc st id created model role tool_calls finish_reason index rest
           usage raw choice value.
    rewrite (transform_success inc st value raw choice rest eq_refl).
    simpl enqueuedBy.
    rewrite !textDeltas_app, textDeltas_rawParts, textDeltas_metadataParts.
    simpl. unfold textParts, deltaText. simpl.
    case_bool_decide; [reflexivity|].
    by destruct (StreamState.activeText st).
Qed.

(** C9: for every content value the text of the synchronous content array
    is the string the streaming path extracts: when [extractTextContent]
    gives a string the text items concatenate to it, when it gives
    undefined there are no items; and the text-delta parts that [transform]
    enqueues for a chunk whose first choice carries that content
    concatenate to the same text. *)
Theorem C9_sync_and_stream_extract_same_text (content : MistralContent) :
  match extractTextContent content with
  | Some text => contentText (generateContent content) = text
  | None => generateContent content = []
  end
  /\ forall includeRawChunks st id created model role tool_calls
            finish_reason index rest usage raw,
      let choice :=
        ChatChunk.mkChoice (ChatChunk.mkDelta role content tool_calls)
                           finish_reason index in
      let value := ChatChunk.mk id created model (choice :: rest) usage in
      join (textDeltas
              (enqueuedBy
                 (transform includeRawChunks st (ParseSuccess value raw))))
      = contentText (generateContent content).
Proof.
  assert (Hsync :
    match extractTextContent content with
    | Some text => contentText (generateContent content) = text
    | None => generateContent content = []
    end).
  { destruct content as [s|parts| |]; simpl; try reflexivity.
    - case_bool_decide; [reflexivity|].
      destruct s; [reflexivity | simpl in *; lia].
    - case_bool_decide as Hnone.
      + apply partContent_none. by apply length_zero_iff_nil.
      + apply contentText_parts. }
  split; [exact Hsync|].
  intros inc st id created model role tool_calls finish_reason index rest
         usage raw choice value.
  rewrite (transform_success inc st value raw choice rest eq_refl).
  simpl enqueuedBy.
  rewrite !textDeltas_app, textDeltas_rawParts, textDeltas_metadataParts.
  simpl app. rewrite textDeltas_textParts.
  pose proof (extracted_text_cases content) as Htext.
  simpl. destruct (extractTextContent content) as [text|].
  - by rewrite Hsync, Htext.
  - by rewrite Hsync, Htext.
Qed.

(** ** Running doGenerate and doStream *)

Lemma doGenerate_getArgs_throws this net options e log :
  getArgs this options = Throw e ->
  doGenerate this net options log = (Throw e, log).
Proof. intros Hargs. unfold doGenerate. cbv [mbind M_bind liftResult]. by rewrite Hargs. Qed.

Lemma doStream_getArgs_throws this net options e log :
  getArgs this options = Throw e ->
  doStream this net options log = (Throw e, log).
Proof. intros Hargs. unfold doStream. cbv [mbind M_bind liftResult]. by rewrite Hargs. Qed.

Lemma doGenerate_answered this net options args warnings configured answer log :
  getArgs this options = Ok (args, warnings) ->
  config_headers (config this) = Ok configured ->
  let body := {| body_args := args; body_stream := None |} in
  let request := fimCompletionsRequest this configured options body in
  jsonHandler net request = Ok answer ->
  doGenerate this net options log
  = match ChatResponse.choices (json_value answer) with
    | [] => (Throw TypeError, log ++ [request])
    | choice :: _ =>
        (Ok {|
           GenerateResult.content :=
             generateContent
               (ChatResponse.content (ChatResponse.message choice));
           GenerateResult.finishReason :=
             mapMistralFinishReason (ChatResponse.finish_reason choice);
           GenerateResult.usage :=
             usageOfWire (ChatResponse.usage (json_value answer));
           GenerateResult.request_body := body;
           GenerateResult.response_metadata :=
             getResponseMetadata (ChatResponse.id (json_value answer))
                                 (ChatResponse.model (json_value answer))
                                 (ChatResponse.created (json_value answer));
           GenerateResult.response_headers := json_responseHeaders answer;
           GenerateResult.response_body := json_rawValue answer;
           GenerateResult.warnings := warnings
         |}, log ++ [request])
    end.
Proof.
  intros Hargs Hheaders body request Hanswer.
  unfold doGenerate. cbv [mbind M_bind liftResult postJsonToApi].
  rewrite Hargs, Hheaders. fold body. fold request. rewrite Hanswer.
  by destruct (ChatResponse.choices (json_value answer)).
Qed.

Lemma doStream_answered this net options args warnings configured answer log :
  getArgs this options = Ok (args, warnings) ->
  config_headers (config this) = Ok configured ->
  let body := {| body_args := args; body_stream := Some true |} in
  let request := fimCompletionsRequest this configured options body in
  eventSourceHandler net request = Ok answer ->
  doStream this net options log
  = (Ok {|
       StreamResult.stream :=
         pipeThrough warnings (Call.includeRawChunks options)
                     (sse_value answer);
       StreamResult.request_body := body;
       StreamResult.response_headers := sse_responseHeaders answer
     |}, log ++ [request]).
Proof.
  intros Hargs Hheaders body request Hanswer.
  unfold doStream. cbv [mbind M_bind liftResult postJsonToApi].
  rewrite Hargs, Hheaders. fold body. fold request. by rewrite Hanswer.
Qed.

(** The streaming test of the suite, 'should stream text deltas'. *)
Example stream_text_deltas :
  pipeThrough [] (Some false) (prepareStreamResponse ["Hello"; ", "; "world!"])
  = Closed
      [ StreamStart [];
        ResponseMetadataPart
          (mkMetadata (Some "53ff663126294946a6b7a4747b70597e")
                      (Some "mistral-small-latest") (Some 1750537996000%Z));
        TextStart "0";
        TextDelta "0" "Hello";
        TextDelta "0" ", ";
        TextDelta "0" "world!";
        TextEnd "0";
        FinishPart FinishStop (mkUsage (Some 4%Z) (Some 32%Z) (Some 36%Z)) ].
Proof. reflexivity. Qed.

(** The synchronous test of the suite, 'should extract text content'. *)
Example generate_text_content :
  GenerateResult.content
  <$> (doGenerate testModel
         (testServer (jsonResponse [jsonChoice (ContentString "Hello, World!")]
                                   testUsage) [])
         (callWithPrompt TEST_PROMPT) []).1
  = Ok [ContentText "Hello, World!"].
Proof. reflexivity. Qed.

(** The streaming test 'should stream text with content objects'. *)
Example stream_content_objects :
  let chunk content finish_reason usage :=
    ParseSuccess
      (ChatChunk.mk (Some "b9e43f82d6c74a1e9f5b2c8e7a9d4f6b")
                    (Some 1750538500%Z) (Some "mistral-small-latest")
                    [ChatChunk.mkChoice (ChatChunk.mkDelta None content None)
                                        finish_reason 0]
                    usage)
      JNull in
  pipeThrough [] (Some false)
    [chunk (ContentParts [PartText ""]) None None;
     chunk (ContentParts [PartText "Hello"]) None None;
     chunk (ContentParts [PartText ", world!"]) (Some "stop") (Some testUsage)]
  = Closed
      [ StreamStart [];
        ResponseMetadataPart
          (mkMetadata (Some "b9e43f82d6c74a1e9f5b2c8e7a9d4f6b")
                      (Some "mistral-small-latest") (Some 1750538500000%Z));
        TextStart "0";
        TextDelta "0" "Hello";
        TextDelta "0" ", world!";
        TextEnd "0";
        FinishPart FinishStop (mkUsage (Some 4%Z) (Some 32%Z) (Some 36%Z)) ].
Proof. reflexivity. Qed.

(** The test 'should stream raw chunks when includeRawChunks is true'; the
    last delta is the empty object, so its content is undefined. *)
Example stream_raw_chunks :
  let chunk id created content finish_reason usage raw :=
    ParseSuccess
      (ChatChunk.mk (Some id) (Some created) (Some "mistral-large-latest")
                    [ChatChunk.mkChoice (ChatChunk.mkDelta None content None)
                                        finish_reason 0]
                    usage)
      (JString raw) in
  pipeThrough [] (Some true)
    [chunk "c7d54e93f8a64b2e9c1f5a8b7d9e2f4c" 1750538600%Z
           (ContentString "Hello") None None "first";
     chunk "d8e65fa4g9b75c3f0d2g6b9c8e0f3g5d" 1750538601%Z
           (ContentString " world") None None "second";
     chunk "e9f76gb5h0c86d4g1e3h7c0d9f1g4h6e" 1750538602%Z
           ContentUndefined (Some "stop")
           (Some {| prompt_tokens := 10; completion_tokens := 5;
                    total_tokens := 15 |}) "third"]
  = Closed
      [ StreamStart [];
        RawPart (JString "first");
        ResponseMetadataPart
          (mkMetadata (Some "c7d54e93f8a64b2e9c1f5a8b7d9e2f4c")
                      (Some "mistral-large-latest") (Some 1750538600000%Z));
        TextStart "0";
        TextDelta "0" "Hello";
        RawPart (JString "second");
        TextDelta "0" " world";
        RawPart (JString "third");
        TextEnd "0";
        FinishPart FinishStop (mkUsage (Some 10%Z) (Some 5%Z) (Some 15%Z)) ].
Proof. reflexivity. Qed.

(** The test 'should extract content when message content is a content
    object'. *)
Example generate_content_object :
  GenerateResult.content
  <$> (doGenerate testModel
         (testServer
            (jsonResponse
               [jsonChoice (ContentParts [PartText "Hello from object"])]
               testUsage) [])
         (callWithPrompt TEST_PROMPT) []).1
  = Ok [ContentText "Hello from object"].
Proof. reflexivity. Qed.

(** The test 'should pass the model and the prompt': the request that is
    dispatched. *)
Example generate_posts_model_and_prompt :
  (post_body
   <$> (doGenerate testModel
          (testServer (jsonResponse [jsonChoice (ContentString "")] testUsage)
                      [])
          (callWithPrompt TEST_PROMPT) []).2)
  = [{| body_args :=
          Args.mk "mistral-small-latest" None None None None None "Hello"
                  None None;
        body_stream := None |}].
Proof. reflexivity. Qed.

(** Usage arriving twice: the later record is the one in the finish part;
    a failed chunk in between changes nothing. *)
Example stream_later_usage_wins :
  pipeThrough [] None
    [testChunk (ContentString "a") None
       (Some {| prompt_tokens := 1; completion_tokens := 1;
                total_tokens := 2 |});
     ParseFailure "Unexpected token" JNull;
     testChunk ContentNull (Some "length") (Some testUsage);
     testChunk (ContentString "b") None None]
  = Closed
      [ StreamStart [];
        ResponseMetadataPart
          (mkMetadata (Some "53ff663126294946a6b7a4747b70597e")
                      (Some "mistral-small-latest") (Some 1750537996000%Z));
        TextStart "0";
        TextDelta "0" "a";
        ErrorPart "Unexpected token";
        TextDelta "0" "b";
        TextEnd "0";
        FinishPart FinishLength (mkUsage (Some 4%Z) (Some 32%Z) (Some 36%Z)) ].
Proof. reflexivity. Qed.

(** ** The synchronous parser *)

(** C5: a synchronous response whose first choice carries the plain string
    "Hi" and the finish reason "stop", with usage 4 / 1 / 5, is normalized
    to the content [{type:"text", text:"Hi"}], the finish reason stop and
    the usage inputTokens 4, outputTokens 1, totalTokens 5, whatever the
    other choices and the other fields of the envelope are. *)
Theorem C5_generate_Hi this net options args warnings configured answer log
    id created model tool_calls index rest :
  getArgs this options = Ok (args, warnings) ->
  config_headers (config this) = Ok configured ->
  jsonHandler net
    (fimCompletionsRequest this configured options
       {| body_args := args; body_stream := None |}) = Ok answer ->
  json_value answer
  = ChatResponse.mk id created model
      (ChatResponse.mkChoice
         (ChatResponse.mkMessage (ContentString "Hi") tool_calls)
         index (Some "stop") :: rest)
      {| prompt_tokens := 4; completion_tokens := 1; total_tokens := 5 |} ->
  exists result,
    (doGenerate this net options log).1 = Ok result
    /\ GenerateResult.content result = [ContentText "Hi"]
    /\ GenerateResult.finishReason result = FinishStop
    /\ GenerateResult.usage result
       = {| inputTokens := Some 4%Z; outputTokens := Some 1%Z;
            totalTokens := Some 5%Z |}.
Proof.
  intros Hargs Hheaders Hanswer Hvalue.
  rewrite (doGenerate_answered _ _ _ _ _ _ _ _ Hargs Hheaders Hanswer).
  rewrite Hvalue. simpl. eexists. split; [reflexivity|]. by simpl.
Qed.

Lemma C5_generate_Hi_witness :
  exists result,
    (doGenerate testModel
       (testServer
          (jsonResponse
             [jsonChoice (ContentString "Hi");
              jsonChoice (ContentString "another choice")]
             {| prompt_tokens := 4; completion_tokens := 1;
                total_tokens := 5 |}) [])
       (callWithPrompt TEST_PROMPT) []).1 = Ok result
    /\ GenerateResult.content result = [ContentText "Hi"]
    /\ GenerateResult.finishReason result = FinishStop
    /\ GenerateResult.usage result
       = {| inputTokens := Some 4%Z; outputTokens := Some 1%Z;
            totalTokens := Some 5%Z |}.
Proof.
  eapply (C5_generate_Hi testModel _ (callWithPrompt TEST_PROMPT));
    reflexivity.
Defined.

(** ** Empty choice lists *)

(** C10: an envelope with an empty choices list is a value of both
    response types, and neither path guards the read of [choices[0]]:
    doGenerate, having posted the request, throws instead of returning a
    normalized result; [transform] throws on such a chunk after the raw and
    response-metadata parts, before any text part and before the state is
    used again; the stream is then errored and carries no finish part. *)
Theorem C10_empty_choices_unguarded :
  (forall this net options args warnings configured answer log,
      getArgs this options = Ok (args, warnings) ->
      config_headers (config this) = Ok configured ->
      let request :=
        fimCompletionsRequest this configured options
          {| body_args := args; body_stream := None |} in
      jsonHandler net request = Ok answer ->
      ChatResponse.choices (json_value answer) = [] ->
      doGenerate this net options log = (Throw TypeError, log ++ [request]))
  /\ (forall includeRawChunks st id created model usage raw,
         let chunk :=
           ParseSuccess (ChatChunk.mk id created model [] usage) raw in
         transform includeRawChunks st chunk
         = Failed (rawParts includeRawChunks chunk
                   ++ metadataParts st (ChatChunk.mk id created model [] usage))
                  TypeError)
  /\ (forall warnings includeRawChunks id created model usage raw later,
         let chunk :=
           ParseSuccess (ChatChunk.mk id created model [] usage) raw in
         pipeThrough warnings includeRawChunks (chunk :: later)
         = Errored
             (StreamStart warnings
              :: rawParts includeRawChunks chunk
              ++ [ResponseMetadataPart
                    (getResponseMetadata id model created)])
             TypeError).
Proof.
  split; [|split].
  - intros this net options args warnings configured answer log
           Hargs Hheaders request Hanswer Hchoices.
    rewrite (doGenerate_answered _ _ _ _ _ _ _ _ Hargs Hheaders Hanswer).
    by rewrite Hchoices.
  - intros. by apply transform_no_choice.
  - intros warnings inc id created model usage raw later chunk.
    unfold pipeThrough. cbn [transformAll].
    unfold chunk. by rewrite transform_no_choice.
Qed.

Lemma C10_empty_choices_unguarded_witness :
  doGenerate testModel (testServer (jsonResponse [] testUsage) [])
             (callWithPrompt TEST_PROMPT) []
  = (Throw TypeError,
     [] ++ [fimCompletionsRequest testModel
              {[ "Authorization" := "Bearer test-api-key" ]}
              (callWithPrompt TEST_PROMPT)
              {| body_args :=
                   Args.mk "mistral-small-latest" None None None None None
                           "Hello" None None;
                 body_stream := None |}]).
Proof.
  eapply (proj1 C10_empty_choices_unguarded testModel _
            (callWithPrompt TEST_PROMPT));
    reflexivity.
Defined.

(** ** The request builder *)

Lemma firstTextPart_none (content : list UserContentPart) :
  (forall text, UserText text ∉ content) -> firstTextPart content = None.
Proof.
  induction content as [|part content IH]; intros Hno; [reflexivity|].
  destruct part as [text|filename data mediaType]; simpl.
  - exfalso. apply (Hno text). left.
  - apply IH. intros text Hin. apply (Hno text). by right.
Qed.

(** User messages without a text part, and messages of other roles, are
    passed over. *)
Lemma extractUserPromptContent_skip (before rest : list Message) :
  (forall skipped, UserMessage skipped ∈ before ->
                   firstTextPart skipped = None) ->
  extractUserPromptContent (before ++ rest) = extractUserPromptContent rest.
Proof.
  induction before as [|message before IH]; intros Hskip; [reflexivity|].
  assert (Hrest : extractUserPromptContent (before ++ rest)
                  = extractUserPromptContent rest).
  { apply IH. intros skipped Hin. apply Hskip. by right. }
  destruct message as [c|c|c|c]; simpl; try exact Hrest.
  rewrite (Hskip c); [exact Hrest | left].
Qed.

Lemma extractUserPromptContent_none (prompt : list Message) :
  noUserText prompt -> extractUserPromptContent prompt = None.
Proof.
  intros Hno. rewrite <- (app_nil_r prompt).
  rewrite extractUserPromptContent_skip; [reflexivity|].
  intros skipped Hin. apply firstTextPart_none.
  intros text. by apply Hno.
Qed.

(** Where a found prompt text comes from. *)
Lemma extractUserPromptContent_source (prompt : list Message) (text : string) :
  extractUserPromptContent prompt = Some text ->
  exists before content after,
    prompt = before ++ UserMessage content :: after
    /\ (forall skipped, UserMessage skipped ∈ before ->
                        firstTextPart skipped = None)
    /\ firstTextPart content = Some text.
Proof.
  induction prompt as [|message prompt IH]; [discriminate|].
  intros Hfound.
  assert (Hlater : extractUserPromptContent prompt = Some text ->
                   (forall c, message = UserMessage c ->
                              firstTextPart c = None) ->
                   exists before content after,
                     message :: prompt = before ++ UserMessage content :: after
                     /\ (forall skipped, UserMessage skipped ∈ before ->
                                         firstTextPart skipped = None)
                     /\ firstTextPart content = Some text).
  { intros Hrest Hmessage.
    destruct (IH Hrest) as (before & content & after & -> & Hskip & Hfirst).
    exists (message :: before), content, after.
    split; [reflexivity|]. split; [|exact Hfirst].
    intros skipped [Heq|Hin]%elem_of_cons;
      [apply Hmessage; by symmetry | by apply Hskip]. }
  destruct message as [c|c|c|c]; simpl in Hfound;
    try (apply Hlater; [exact Hfound | discriminate]).
  destruct (firstTextPart c) as [found|] eqn:Hfirst.
  - exists [], c, prompt. split; [reflexivity|].
    split; [intros skipped Hin; by apply elem_of_nil in Hin | congruence].
  - apply Hlater; [exact Hfound | congruence].
Qed.

(** getArgs by cases, in the order the source decides them. *)
Lemma getArgs_cases this options :
  getArgs this options
  = match parseProviderOptions (provider (config this))
                               (Call.providerOptions options) with
    | Throw e => Throw e
    | Ok parsed =>
        match extractUserPromptContent (Call.prompt options) with
        | None => Throw EmptyPromptError
        | Some prefix =>
            if bool_decide (prefix = "") then Throw EmptyPromptError
            else
              Ok (Args.mk (modelId this) (Call.temperature options)
                          (Call.topP options) (Call.maxOutputTokens options)
                          (Options.stop (default Options.empty parsed))
                          (Call.seed options) prefix
                          (Options.suffix (default Options.empty parsed))
                          (Options.min_token (default Options.empty parsed)),
                  warnUnsupported (Call.topK options) "topK"
                  ++ warnUnsupported (Call.frequencyPenalty options)
                                     "frequencyPenalty"
                  ++ warnUnsupported (Call.presencePenalty options)
                                     "presencePenalty"
                  ++ warnUnsupported (Call.stopSequences options)
                                     "stopSequences"
                  ++ warnUnsupported (Call.responseFormat options)
                                     "responseFormat"
                  ++ warnUnsupported (Call.tools options) "tools"
                  ++ warnUnsupported (Call.toolChoice options) "toolChoice")
        end
    end.
Proof.
  unfold getArgs. cbv [mbind Result_bind].
  by destruct (parseProviderOptions _ _).
Qed.

(** C2 (as amended): the wire prompt is the first part of type text of the
    first user message that has such a part; user messages without a text
    part before it are passed over, and no message after it is consulted.
    Every request that is built has its prompt from there, and it is not
    empty; and when that text is not empty and the provider options
    validate, a request is built whose prompt is that exact text, whatever
    follows the message. *)
Theorem C2_prompt_is_first_user_text this options :
  (forall args warnings,
      getArgs this options = Ok (args, warnings) ->
      exists before content after,
        Call.prompt options = before ++ UserMessage content :: after
        /\ (forall skipped, UserMessage skipped ∈ before ->
                            firstTextPart skipped = None)
        /\ firstTextPart content = Some (Args.prompt args)
        /\ Args.prompt args <> "")
  /\ (forall before content after text parsed,
         Call.prompt options = before ++ UserMessage content :: after ->
         (forall skipped, UserMessage skipped ∈ before ->
                          firstTextPart skipped = None) ->
         firstTextPart content = Some text ->
         text <> "" ->
         parseProviderOptions (provider (config this))
                              (Call.providerOptions options) = Ok parsed ->
         exists args warnings,
           getArgs this options = Ok (args, warnings)
           /\ Args.prompt args = text).
Proof.
  split.
  - intros args warnings Hbuilt. rewrite getArgs_cases in Hbuilt.
    destruct (parseProviderOptions _ _) as [parsed|]; [|discriminate].
    destruct (extractUserPromptContent _) as [prefix|] eqn:Hfound;
      [|discriminate].
    case_bool_decide as Hempty; [discriminate|].
    injection Hbuilt as <- _. simpl.
    destruct (extractUserPromptContent_source _ _ Hfound)
      as (before & content & after & Hsplit & Hskip & Hfirst).
    by exists before, content, after.
  - intros before content after text parsed Hsplit Hskip Hfirst Htext Hparsed.
    rewrite getArgs_cases, Hparsed, Hsplit.
    rewrite (extractUserPromptContent_skip _ _ Hskip). simpl.
    rewrite Hfirst, bool_decide_eq_false_2 by exact Htext.
    by eexists _, _.
Qed.

Lemma C2_prompt_is_first_user_text_witness :
  exists args warnings,
    getArgs testModel
      (callWithPrompt [SystemMessage "Complete the code.";
                       UserMessage [UserText "Hello"; UserText "ignored"];
                       UserMessage [UserText "a later message"]])
    = Ok (args, warnings)
    /\ Args.prompt args = "Hello".
Proof.
  apply (proj2 (C2_prompt_is_first_user_text testModel _)
           [SystemMessage "Complete the code."]
           [UserText "Hello"; UserText "ignored"]
           [UserMessage [UserText "a later message"]] "Hello" None).
  - reflexivity.
  - intros skipped Hin. apply list_elem_of_singleton in Hin. discriminate.
  - reflexivity.
  - discriminate.
  - reflexivity.
Defined.

(** C2, the claim as stated fails: the prompt does not always come from
    the first message with role user.  When that message has no text part,
    the text of a later user message is taken. *)
Lemma C2_later_user_message_consulted :
  ~ (forall this options args warnings,
        getArgs this options = Ok (args, warnings) ->
        exists content,
          firstUserMessage (Call.prompt options) = Some content
          /\ firstTextPart content = Some (Args.prompt args)).
Proof.
  intros Hclaim.
  destruct (Hclaim testModel
              (callWithPrompt [fileOnlyMessage; UserMessage [UserText "Hello"]])
              _ _ eq_refl) as (content & Hfirst & Htext).
  simpl in Hfirst. injection Hfirst as <-. discriminate.
Qed.

(** C3 (as amended): when no user message has a text part, building the
    request fails and nothing is returned: with the empty-prompt error if
    the provider options validate, and with their validation error, which
    is raised first, if they do not.  doGenerate and doStream fail with the
    same error and leave the log of dispatched requests as it was. *)
Theorem C3_no_user_text_is_fatal this net options log :
  noUserText (Call.prompt options) ->
  exists e,
    getArgs this options = Throw e
    /\ match parseProviderOptions (provider (config this))
                                  (Call.providerOptions options) with
       | Ok _ => e = EmptyPromptError
       | Throw invalid => e = invalid
       end
    /\ doGenerate this net options log = (Throw e, log)
    /\ doStream this net options log = (Throw e, log).
Proof.
  intros Hno.
  assert (Hthrows : exists e,
             getArgs this options = Throw e
             /\ match parseProviderOptions (provider (config this))
                                           (Call.providerOptions options) with
                | Ok _ => e = EmptyPromptError
                | Throw invalid => e = invalid
                end).
  { rewrite getArgs_cases, (extractUserPromptContent_none _ Hno).
    destruct (parseProviderOptions _ _); by eexists. }
  destruct Hthrows as (e & Hargs & Hkind). exists e.
  repeat split; [exact Hargs | exact Hkind | |].
  - by apply doGenerate_getArgs_throws.
  - by apply doStream_getArgs_throws.
Qed.

Lemma C3_no_user_text_is_fatal_witness :
  exists e,
    getArgs testModel
      (callWithPrompt [SystemMessage "Complete the code."; fileOnlyMessage])
    = Throw e
    /\ match parseProviderOptions "mistral.fim" None with
       | Ok _ => e = EmptyPromptError
       | Throw invalid => e = invalid
       end
    /\ doGenerate testModel (testServer (jsonResponse [] testUsage) [])
         (callWithPrompt [SystemMessage "Complete the code."; fileOnlyMessage])
         [] = (Throw e, [])
    /\ doStream testModel (testServer (jsonResponse [] testUsage) [])
         (callWithPrompt [SystemMessage "Complete the code."; fileOnlyMessage])
         [] = (Throw e, []).
Proof.
  apply (C3_no_user_text_is_fatal testModel
           (testServer (jsonResponse [] testUsage) [])
           (callWithPrompt [SystemMessage "Complete the code."; fileOnlyMessage])
           []).
  intros content text Hin Htext. simpl in Hin.
  apply elem_of_cons in Hin as [Hin|Hin]; [discriminate|].
  apply list_elem_of_singleton in Hin. injection Hin as ->.
  apply list_elem_of_singleton in Htext. discriminate.
Defined.

(** C3, the claim as stated fails: a call without any user text part whose
    provider options do not validate fails with the validation error, not
    with the empty-prompt error. *)
Lemma C3_validation_error_comes_first :
  ~ (forall this options,
        noUserText (Call.prompt options) ->
        getArgs this options = Throw EmptyPromptError).
Proof.
  intros Hclaim.
  assert (Hno : noUserText (Call.prompt (callWithBadSuffix [fileOnlyMessage]))).
  { intros content text Hin Htext. simpl in Hin.
    apply list_elem_of_singleton in Hin. injection Hin as ->.
    apply list_elem_of_singleton in Htext. discriminate. }
  specialize (Hclaim testModel _ Hno). vm_compute in Hclaim. discriminate.
Qed.

Lemma occurrences_app setting (a b : list LanguageModelV2CallWarning) :
  occurrences setting (a ++ b) = occurrences setting a + occurrences setting b.
Proof. unfold occurrences. by rewrite filter_app, length_app. Qed.

Lemma occurrences_warnUnsupported {A} setting (value : option A) name :
  occurrences setting (warnUnsupported value name)
  = if bool_decide (name = setting) then supplied value else 0.
Proof.
  unfold occurrences.
  destruct value as [v|]; simpl; [|by case_bool_decide].
  rewrite filter_cons, filter_nil.
  case_bool_decide as Hname; case_decide as Hwarning; simpl;
    congruence.
Qed.

(** C4: in what the request builder returns, each of the seven settings
    topK, frequencyPenalty, presencePenalty, stopSequences, responseFormat,
    tools and toolChoice has exactly one unsupported-setting warning when it
    was supplied and none when it was not; and the wire request does not
    depend on the seven values: with any other values for them the builder
    returns the same wire request. *)
Theorem C4_unsupported_settings this options args warnings :
  getArgs this options = Ok (args, warnings) ->
  (occurrences "topK" warnings = supplied (Call.topK options)
   /\ occurrences "frequencyPenalty" warnings
      = supplied (Call.frequencyPenalty options)
   /\ occurrences "presencePenalty" warnings
      = supplied (Call.presencePenalty options)
   /\ occurrences "stopSequences" warnings
      = supplied (Call.stopSequences options)
   /\ occurrences "responseFormat" warnings
      = supplied (Call.responseFormat options)
   /\ occurrences "tools" warnings = supplied (Call.tools options)
   /\ occurrences "toolChoice" warnings = supplied (Call.toolChoice options))
  /\ (forall setting,
         0 < occurrences setting warnings ->
         setting ∈ ["topK"; "frequencyPenalty"; "presencePenalty";
                    "stopSequences"; "responseFormat"; "tools"; "toolChoice"])
  /\ (forall topK frequencyPenalty presencePenalty stopSequences
             responseFormat tools toolChoice,
         exists warnings',
           getArgs this
             (withGenericSettings options topK frequencyPenalty
                presencePenalty stopSequences responseFormat tools toolChoice)
           = Ok (args, warnings')).
Proof.
  intros Hbuilt. rewrite getArgs_cases in Hbuilt.
  destruct (parseProviderOptions _ _) as [parsed|] eqn:Hparsed;
    [|discriminate].
  destruct (extractUserPromptContent _) as [prefix|] eqn:Hfound;
    [|discriminate].
  case_bool_decide as Hempty; [discriminate|].
  injection Hbuilt as <- <-.
  split; [|split].
  - repeat split;
      rewrite !occurrences_app, !occurrences_warnUnsupported; simpl; lia.
  - intros setting.
    rewrite !occurrences_app, !occurrences_warnUnsupported.
    repeat case_bool_decide; subst; try lia; intros _;
      repeat first [by left | right].
  - intros. eexists. rewrite getArgs_cases. simpl.
    rewrite Hparsed, Hfound, bool_decide_eq_false_2 by exact Hempty.
    reflexivity.
Qed.

Lemma C4_unsupported_settings_witness :
  let options :=
    withGenericSettings (callWithPrompt TEST_PROMPT)
      (Some 40%Z) None (Some 1%Z) (Some ["END"]) None
      (Some [FunctionTool "lookup" None JNull]) (Some ChoiceAuto) in
  let args :=
    Args.mk "mistral-small-latest" None None None None None "Hello"
            None None in
  let warnings :=
    [UnsupportedSetting "topK"; UnsupportedSetting "presencePenalty";
     UnsupportedSetting "stopSequences"; UnsupportedSetting "tools";
     UnsupportedSetting "toolChoice"] in
  getArgs testModel options = Ok (args, warnings)
  /\ occurrences "topK" warnings = 1
  /\ occurrences "frequencyPenalty" warnings = 0
  /\ exists warnings',
       getArgs testModel
         (withGenericSettings options None (Some 2%Z) None None
            (Some FormatText) None None)
       = Ok (args, warnings').
Proof.
  intros options args warnings.
  split; [reflexivity|].
  destruct (C4_unsupported_settings testModel options args warnings eq_refl)
    as ((HtopK & Hfrequency & _) & _ & Hsame).
  split; [exact HtopK|]. split; [exact Hfrequency|].
  exact (Hsame None (Some 2%Z) None None (Some FormatText) None None).
Defined.

(** ** The stream transform over a chunk sequence *)

Lemma textSpan_app (a b : list LanguageModelV2StreamPart) :
  textSpan (a ++ b) = textSpan a ++ textSpan b.
Proof. apply filter_app. Qed.

Lemma textSpan_rawParts includeRawChunks chunk :
  textSpan (rawParts includeRawChunks chunk) = [].
Proof. unfold rawParts. by destruct (default false includeRawChunks). Qed.

Lemma textSpan_metadataParts st value : textSpan (metadataParts st value) = [].
Proof. unfold metadataParts. by destruct (StreamState.isFirstChunk st). Qed.

Lemma textSpan_textParts active text :
  textSpan (textParts active text) = textParts active text.
Proof.
  unfold textParts. case_bool_decide; [reflexivity|]. by destruct active.
Qed.

Lemma notFinish_rawParts includeRawChunks chunk :
  Forall (fun part => ~ isFinishPart part) (rawParts includeRawChunks chunk).
Proof.
  unfold rawParts. destruct (default false includeRawChunks);
    repeat constructor; simpl; tauto.
Qed.

Lemma notFinish_metadataParts st value :
  Forall (fun part => ~ isFinishPart part) (metadataParts st value).
Proof.
  unfold metadataParts. destruct (StreamState.isFirstChunk st);
    repeat constructor; simpl; tauto.
Qed.

Lemma notFinish_textParts active text :
  Forall (fun part => ~ isFinishPart part) (textParts active text).
Proof.
  unfold textParts. case_bool_decide; [constructor|].
  destruct active; repeat constructor; simpl; tauto.
Qed.

(** A chunk is a failure, lacks a choice, or has a first choice. *)
Lemma chunk_cases (chunk : ParseResult) :
  (exists error raw, chunk = ParseFailure error raw)
  \/ (exists value raw, chunk = ParseSuccess value raw
                        /\ ChatChunk.choices value = [])
  \/ (exists value raw choice rest,
         chunk = ParseSuccess value raw
         /\ ChatChunk.choices value = choice :: rest).
Proof.
  destruct chunk as [value raw|error raw]; [|left; by eexists _, _].
  right. destruct (ChatChunk.choices value) as [|choice rest] eqn:Hchoices.
  - left. by eexists _, _.
  - right. by eexists _, _, _, _.
Qed.

(** A failed chunk adds its own parts and nothing else: what follows is
    transformed from the state the chunk found. *)
Lemma transformAll_failure includeRawChunks st error raw later :
  transformAll includeRawChunks st (ParseFailure error raw :: later)
  = ((rawParts includeRawChunks (ParseFailure error raw) ++ [ErrorPart error])
     ++ (transformAll includeRawChunks st later).1,
     (transformAll includeRawChunks st later).2).
Proof.
  cbn [transformAll]. rewrite transform_failure.
  by destruct (transformAll includeRawChunks st later).
Qed.

(** Usage tracking and the absence of finish parts before [flush], for
    every chunk sequence; the transform only throws on a chunk without a
    choice. *)
Lemma transformAll_usage includeRawChunks chunks :
  forall st,
    Forall (fun part => ~ isFinishPart part)
           (transformAll includeRawChunks st chunks).1
    /\ match (transformAll includeRawChunks st chunks).2 with
       | Ok final =>
           StreamState.usage final
           = match last (omap chunkUsage chunks) with
             | Some wire => usageOfWire wire
             | None => StreamState.usage st
             end
           /\ Forall (fun chunk => ~ lacksChoice chunk) chunks
       | Throw e => e = TypeError /\ Exists lacksChoice chunks
       end.
Proof.
  induction chunks as [|chunk chunks IH]; intros st.
  { simpl. split; [constructor | split; [reflexivity | constructor]]. }
  destruct (chunk_cases chunk)
    as [(error & raw & ->)
       |[(value & raw & -> & Hnone)
        |(value & raw & choice & rest & -> & Hchoice)]].
  - rewrite transformAll_failure. simpl.
    destruct (IH st) as [Hparts Hfinal]. split.
    + apply Forall_app. split; [|exact Hparts].
      apply Forall_app. split; [apply notFinish_rawParts|].
      repeat constructor. simpl. tauto.
    + destruct (transformAll includeRawChunks st chunks).2 as [final|e].
      * destruct Hfinal as [Husage Hall]. split; [exact Husage|].
        constructor; [simpl; tauto | exact Hall].
      * destruct Hfinal as [He Hex]. split; [exact He | by right].
  - cbn [transformAll]. rewrite transform_no_choice by exact Hnone. simpl.
    split.
    + apply Forall_app. split;
        [apply notFinish_rawParts | apply notFinish_metadataParts].
    + split; [reflexivity | by left].
  - cbn [transformAll].
    rewrite (transform_success _ _ _ _ _ _ Hchoice). cbv zeta.
    match goal with
    | |- context [transformAll includeRawChunks ?next chunks] =>
        destruct (IH next) as [Hparts Hfinal];
        destruct (transformAll includeRawChunks next chunks)
          as [later final]
    end.
    simpl in *. split.
    + repeat (apply Forall_app; split);
        auto using notFinish_rawParts, notFinish_metadataParts,
                   notFinish_textParts.
    + destruct final as [final|e].
      * destruct Hfinal as [Husage Hall]. split.
        -- rewrite Husage.
           destruct (ChatChunk.usage value) as [wire|]; simpl;
             [|reflexivity].
           rewrite last_cons. by destruct (last _).
        -- constructor; [|exact Hall]. simpl. by rewrite Hchoice.
      * destruct Hfinal as [He Hex]. split; [exact He | by right].
Qed.

(** What a consumer reads, for every chunk sequence: a closed stream ends
    with its only finish part, which carries the last usage seen; a stream
    is errored only by a chunk without a choice, and then has no finish
    part. *)
Lemma pipeThrough_outcome warnings includeRawChunks chunks :
  match pipeThrough warnings includeRawChunks chunks with
  | Closed parts =>
      (exists before finishReason,
          parts = before ++ [FinishPart finishReason (lastUsage chunks)]
          /\ Forall (fun part => ~ isFinishPart part) before)
      /\ Forall (fun chunk => ~ lacksChoice chunk) chunks
  | Errored parts e =>
      Forall (fun part => ~ isFinishPart part) parts
      /\ e = TypeError
      /\ Exists lacksChoice chunks
  end.
Proof.
  unfold pipeThrough.
  pose proof (transformAll_usage includeRawChunks chunks StreamState.initial)
    as [Hparts Hfinal].
  destruct (transformAll includeRawChunks StreamState.initial chunks)
    as [parts [final|e]]; simpl in *.
  - destruct Hfinal as [Husage Hall]. split; [|exact Hall].
    exists ([StreamStart warnings] ++ parts
            ++ (if StreamState.activeText final then [TextEnd "0"] else [])),
           (StreamState.finishReason final).
    split.
    + unfold flush, lastUsage. rewrite Husage. simpl.
      by rewrite <- !app_assoc.
    + repeat (apply Forall_app; split); try exact Hparts.
      * repeat constructor. simpl. tauto.
      * destruct (StreamState.activeText final);
          repeat constructor; simpl; tauto.
  - destruct Hfinal as [He Hex]. repeat split; [|exact He | exact Hex].
    constructor; [simpl; tauto | exact Hparts].
Qed.

(** C6 (as amended): for every chunk sequence in which every successfully
    parsed chunk has at least one choice, the stream closes, its last part
    is the finish part, there is no other finish part, and the usage it
    carries is the last usage record seen on a successfully parsed chunk
    (each record overwrites all three counters, so the later one wins),
    with all three counters undefined when no chunk carried one. *)
Theorem C6_finish_carries_last_usage warnings includeRawChunks chunks :
  Forall (fun chunk => ~ lacksChoice chunk) chunks ->
  exists before finishReason,
    pipeThrough warnings includeRawChunks chunks
    = Closed
        (before
         ++ [FinishPart finishReason
               (match last (omap chunkUsage chunks) with
                | Some wire =>
                    {| inputTokens := Some (prompt_tokens wire);
                       outputTokens := Some (completion_tokens wire);
                       totalTokens := Some (total_tokens wire) |}
                | None =>
                    {| inputTokens := None; outputTokens := None;
                       totalTokens := None |}
                end)])
    /\ Forall (fun part => ~ isFinishPart part) before.
Proof.
  intros Hall.
  pose proof (pipeThrough_outcome warnings includeRawChunks chunks) as H.
  destruct (pipeThrough warnings includeRawChunks chunks) as [parts|parts e].
  - destruct H as [(before & finishReason & Hparts & Hbefore) _].
    exists before, finishReason. split; [|exact Hbefore].
    rewrite Hparts. reflexivity.
  - destruct H as (_ & _ & Hex). exfalso.
    apply Exists_exists in Hex as (chunk & Hin & Hlacks).
    rewrite Forall_forall in Hall. by apply (Hall chunk).
Qed.

Lemma C6_finish_carries_last_usage_witness :
  exists before finishReason,
    pipeThrough [] (Some true)
      [testChunk (ContentString "a") None
         (Some {| prompt_tokens := 1; completion_tokens := 1;
                  total_tokens := 2 |});
       ParseFailure "Unexpected token" JNull;
       testChunk ContentNull (Some "length") (Some testUsage);
       testChunk (ContentString "b") None None]
    = Closed
        (before
         ++ [FinishPart finishReason
               {| inputTokens := Some 4%Z; outputTokens := Some 32%Z;
                  totalTokens := Some 36%Z |}])
    /\ Forall (fun part => ~ isFinishPart part) before.
Proof.
  apply (C6_finish_carries_last_usage [] (Some true)
           [testChunk (ContentString "a") None
              (Some {| prompt_tokens := 1; completion_tokens := 1;
                       total_tokens := 2 |});
            ParseFailure "Unexpected token" JNull;
            testChunk ContentNull (Some "length") (Some testUsage);
            testChunk (ContentString "b") None None]).
  repeat first [apply Forall_nil_2 | apply Forall_cons_2]; simpl;
    first [discriminate | tauto].
Defined.

(** C6, the claim as stated fails: not every chunk sequence ends in a
    finish part that carries the last usage seen.  Here the first chunk
    carries the usage 4 / 32 / 36 and the second parsed with an empty
    choices list: [transform] throws on it, the stream is errored, and
    no finish part is enqueued at all. *)
Lemma C6_no_finish_part_when_errored :
  ~ (forall warnings includeRawChunks chunks,
        exists parts finishReason,
          (pipeThrough warnings includeRawChunks chunks = Closed parts
           \/ exists e,
                pipeThrough warnings includeRawChunks chunks
                = Errored parts e)
          /\ FinishPart finishReason (lastUsage chunks) ∈ parts).
Proof.
  intros Hclaim.
  destruct (Hclaim [] None
              [testChunk (ContentString "a") None (Some testUsage);
               chunkWithoutChoices None])
    as (parts & finishReason & Houtcome & Hin).
  vm_compute in Houtcome.
  destruct Houtcome as [Hclosed|[e Herrored]]; [discriminate|].
  injection Herrored as <- _.
  repeat (apply elem_of_cons in Hin as [Hin|Hin]; [discriminate|]).
  by apply elem_of_nil in Hin.
Qed.

(** A stream without a choice-less chunk closes. *)
Lemma pipeThrough_closes warnings includeRawChunks chunks :
  Forall (fun chunk => ~ lacksChoice chunk) chunks ->
  exists before finishReason,
    pipeThrough warnings includeRawChunks chunks
    = Closed (before ++ [FinishPart finishReason (lastUsage chunks)])
    /\ Forall (fun part => ~ isFinishPart part) before.
Proof.
  intros Hall.
  pose proof (pipeThrough_outcome warnings includeRawChunks chunks) as H.
  destruct (pipeThrough warnings includeRawChunks chunks) as [parts|parts e].
  - destruct H as [(before & finishReason & -> & Hbefore) _].
    by exists before, finishReason.
  - destruct H as (_ & _ & Hex). exfalso.
    apply Exists_exists in Hex as (chunk & Hin & Hlacks).
    rewrite Forall_forall in Hall. by apply (Hall chunk).
Qed.

(** C7 (as amended): a chunk that fails to parse makes [transform] enqueue
    the raw part, when raw passthrough is requested, and then exactly one
    error part, and leaves isFirstChunk, activeText, finishReason and usage
    as they were; the chunks after it are transformed from that unchanged
    state; and the stream closes with exactly one finish part, as its last
    part, provided no successfully parsed chunk has an empty choices
    list. *)
Theorem C7_parse_failure_is_isolated includeRawChunks error raw :
  (forall st,
      transform includeRawChunks st (ParseFailure error raw)
      = Enqueued
          ((if default false includeRawChunks then [RawPart raw] else [])
           ++ [ErrorPart error])
          st)
  /\ (forall st later,
         transformAll includeRawChunks st (ParseFailure error raw :: later)
         = (((if default false includeRawChunks then [RawPart raw] else [])
             ++ [ErrorPart error])
            ++ (transformAll includeRawChunks st later).1,
            (transformAll includeRawChunks st later).2))
  /\ (forall warnings earlier later,
         Forall (fun chunk => ~ lacksChoice chunk) (earlier ++ later) ->
         exists before finishReason usage,
           pipeThrough warnings includeRawChunks
             (earlier ++ ParseFailure error raw :: later)
           = Closed (before ++ [FinishPart finishReason usage])
           /\ Forall (fun part => ~ isFinishPart part) before
           /\ ErrorPart error ∈ before).
Proof.
  split; [|split].
  - intros st. apply transform_failure.
  - intros st later. apply transformAll_failure.
  - intros warnings earlier later Hall.
    assert (Hall' : Forall (fun chunk => ~ lacksChoice chunk)
                      (earlier ++ ParseFailure error raw :: later)).
    { apply Forall_app in Hall as [Hearlier Hlater].
      apply Forall_app. split; [exact Hearlier|].
      constructor; [simpl; tauto | exact Hlater]. }
    destruct (pipeThrough_closes warnings includeRawChunks _ Hall')
      as (before & finishReason & Hclosed & Hbefore).
    exists before, finishReason,
      (lastUsage (earlier ++ ParseFailure error raw :: later)).
    split; [exact Hclosed|].
    split; [exact Hbefore|].
    (* the error part of the failed chunk is among the parts read *)
    revert Hclosed. unfold pipeThrough.
    assert (Hin : forall st,
               ErrorPart error
               ∈ (transformAll includeRawChunks st
                    (earlier ++ ParseFailure error raw :: later)).1
               \/ exists e, (transformAll includeRawChunks st
                               (earlier ++ ParseFailure error raw :: later)).2
                            = Throw e).
    { clear. induction earlier as [|chunk earlier IH]; intros st.
      - left. rewrite app_nil_l, transformAll_failure. simpl.
        apply elem_of_app. left. apply elem_of_app. right. left.
      - rewrite <- app_comm_cons. cbn [transformAll].
        destruct (transform includeRawChunks st chunk) as [parts st'|parts e].
        + destruct (IH st') as [Hhere|[e He]];
            destruct (transformAll includeRawChunks st' _) as [more final];
            simpl in *.
          * left. apply elem_of_app. by right.
          * right. by exists e.
        + right. by exists e. }
    destruct (Hin StreamState.initial) as [Hhere|[e He]];
      destruct (transformAll includeRawChunks StreamState.initial _)
        as [parts [final|e']]; simpl in *; try discriminate.
    intros [= Hparts].
    assert (Hmem : ErrorPart error
                   ∈ StreamStart warnings :: parts ++ flush final).
    { right. apply elem_of_app. by left. }
    rewrite Hparts in Hmem.
    apply elem_of_app in Hmem as [Hmem|Hmem]; [exact Hmem|].
    apply list_elem_of_singleton in Hmem. discriminate.
Qed.

Lemma C7_parse_failure_is_isolated_witness :
  exists before finishReason usage,
    pipeThrough [] (Some true)
      ([testChunk (ContentString "Hello") None None]
       ++ ParseFailure "Unexpected token" (JString "{oops")
       :: [testChunk (ContentString "") (Some "stop") (Some testUsage)])
    = Closed (before ++ [FinishPart finishReason usage])
    /\ Forall (fun part => ~ isFinishPart part) before
    /\ ErrorPart "Unexpected token" ∈ before.
Proof.
  apply (proj2 (proj2 (C7_parse_failure_is_isolated
                         (Some true) "Unexpected token" (JString "{oops")))
           []
           [testChunk (ContentString "Hello") None None]
           [testChunk (ContentString "") (Some "stop") (Some testUsage)]).
  repeat constructor; simpl; discriminate.
Defined.

(** C7, the claim as stated fails: a stream that contains a chunk that
    failed to parse does not always end with a finish part.  Here the
    failed chunk is followed by a parsed chunk with an empty choices list;
    the stream is errored and carries no finish part. *)
Lemma C7_no_finish_after_choiceless_chunk :
  ~ (forall warnings includeRawChunks chunks error raw,
        ParseFailure error raw ∈ chunks ->
        exists before finishReason usage,
          pipeThrough warnings includeRawChunks chunks
          = Closed (before ++ [FinishPart finishReason usage])).
Proof.
  intros Hclaim.
  destruct (Hclaim [] None
              [ParseFailure "Unexpected token" (JString "{oops");
               chunkWithoutChoices None]
              "Unexpected token" (JString "{oops"))
    as (before & finishReason & usage & Hclosed).
  - left.
  - vm_compute in Hclosed. discriminate.
Qed.

(** ** Text spans *)

Lemma join_nonempty_texts (texts : list string) :
  join (filter (fun text => text <> "") texts) = join texts.
Proof.
  induction texts as [|text texts IH]; [reflexivity|].
  rewrite filter_cons. destruct (decide (text <> "")) as [Htext|Htext].
  - by rewrite !join_cons, IH.
  - apply dec_stable in Htext. by rewrite Htext, join_cons, IH.
Qed.

(** Over delta chunks the transform never throws; the text parts it
    enqueues are one text-start, unless a span was open already or no text
    arrives, and one text-delta per non-empty extracted text. *)
Lemma transformAll_delta_chunks includeRawChunks chunks :
  Forall isDeltaChunk chunks ->
  forall st,
    let texts := filter (fun text => text <> "") (chunkText <$> chunks) in
    exists parts final,
      transformAll includeRawChunks st chunks = (parts, Ok final)
      /\ textSpan parts
         = (if StreamState.activeText st || bool_decide (texts = [])
            then [] else [TextStart "0"])
           ++ (TextDelta "0" <$> texts)
      /\ StreamState.activeText final
         = StreamState.activeText st || negb (bool_decide (texts = [])).
Proof.
  induction 1 as [|chunk chunks [choice Hfirst] _ IH]; intros st texts.
  { exists [], st. subst texts. simpl.
    by rewrite !orb_true_r, orb_false_r. }
  destruct chunk as [value raw|error raw]; [|discriminate].
  simpl in Hfirst.
  destruct (ChatChunk.choices value) as [|choice' rest] eqn:Hchoices;
    [discriminate|].
  injection Hfirst as ->.
  cbn [transformAll].
  rewrite (transform_success _ _ _ _ _ _ Hchoices). cbv zeta.
  set (text := deltaText (ChatChunk.content (ChatChunk.delta choice))).
  assert (Htext : chunkText (ParseSuccess value raw) = text).
  { unfold chunkText. simpl. by rewrite Hchoices. }
  match goal with
  | |- context [transformAll includeRawChunks ?next chunks] =>
      destruct (IH next) as (later & final & -> & Hspan & Hactive)
  end.
  eexists _, final. split; [reflexivity|].
  rewrite !textSpan_app, textSpan_rawParts, textSpan_metadataParts,
          textSpan_textParts, Hspan, Hactive.
  subst texts. rewrite fmap_cons, filter_cons, Htext.
  simpl StreamState.activeText. unfold textParts.
  case_bool_decide as Hempty; case_decide; try tauto.
  - simpl. by rewrite orb_false_r.
  - simpl. rewrite orb_true_r, orb_false_r. simpl.
    by rewrite <- app_assoc.
Qed.

(** C1: for a sequence of successfully parsed delta chunks whose extracted
    texts concatenate to a non-empty string, the stream closes; among its
    parts there is exactly one text-start, one or more text-deltas whose
    deltas concatenate to that string, exactly one text-end and exactly one
    finish, in that order, all text parts with the span id "0"; the
    text-end and the finish are the last two parts of the stream. *)
Theorem C1_one_bracketed_text_span warnings includeRawChunks chunks :
  Forall isDeltaChunk chunks ->
  join (chunkText <$> chunks) <> "" ->
  exists before deltas finishReason usage,
    pipeThrough warnings includeRawChunks chunks
    = Closed (before ++ [TextEnd "0"; FinishPart finishReason usage])
    /\ textSpan (before ++ [TextEnd "0"; FinishPart finishReason usage])
       = TextStart "0" :: (TextDelta "0" <$> deltas)
         ++ [TextEnd "0"; FinishPart finishReason usage]
    /\ deltas <> []
    /\ join deltas = join (chunkText <$> chunks).
Proof.
  intros Hdelta Hnonempty.
  destruct (transformAll_delta_chunks includeRawChunks chunks Hdelta
              StreamState.initial)
    as (parts & final & Hrun & Hspan & Hactive).
  set (texts := filter (fun text => text <> "") (chunkText <$> chunks)) in *.
  assert (Htexts : texts <> []).
  { intros Hnone. apply Hnonempty.
    rewrite <- join_nonempty_texts. fold texts. by rewrite Hnone. }
  simpl in Hspan, Hactive.
  rewrite bool_decide_eq_false_2 in Hspan, Hactive by exact Htexts.
  simpl in Hspan, Hactive.
  exists ([StreamStart warnings] ++ parts), texts,
         (StreamState.finishReason final), (StreamState.usage final).
  split; [|split; [|split]].
  - unfold pipeThrough. rewrite Hrun. unfold flush. rewrite Hactive.
    reflexivity.
  - rewrite !textSpan_app, Hspan. reflexivity.
  - exact Htexts.
  - apply join_nonempty_texts.
Qed.

Lemma C1_one_bracketed_text_span_witness :
  exists before deltas finishReason usage,
    pipeThrough [] (Some true) (prepareStreamResponse ["H"; "ello, world!"])
    = Closed (before ++ [TextEnd "0"; FinishPart finishReason usage])
    /\ textSpan (before ++ [TextEnd "0"; FinishPart finishReason usage])
       = TextStart "0" :: (TextDelta "0" <$> deltas)
         ++ [TextEnd "0"; FinishPart finishReason usage]
    /\ deltas <> []
    /\ join deltas
       = join (chunkText <$> prepareStreamResponse ["H"; "ello, world!"]).
Proof.
  apply (C1_one_bracketed_text_span [] (Some true)
           (prepareStreamResponse ["H"; "ello, world!"])).
  - repeat constructor; by eexists.
  - vm_compute. discriminate.
Defined.

(** * Further properties of the code *)

(** ** The stream transform, chunk by chunk *)

Lemma transformAll_no_choice includeRawChunks st value raw later :
  ChatChunk.choices value = [] ->
  transformAll includeRawChunks st (ParseSuccess value raw :: later)
  = (rawParts includeRawChunks (ParseSuccess value raw)
     ++ metadataParts st value, Throw TypeError).
Proof.
  intros Hnone. cbn [transformAll].
  by rewrite transform_no_choice.
Qed.

Lemma transformAll_success includeRawChunks st value raw choice rest later :
  ChatChunk.choices value = choice :: rest ->
  transformAll includeRawChunks st (ParseSuccess value raw :: later)
  = ((rawParts includeRawChunks (ParseSuccess value raw)
      ++ metadataParts st value
      ++ textParts (StreamState.activeText st)
           (deltaText (ChatChunk.content (ChatChunk.delta choice))))
     ++ (transformAll includeRawChunks (advance st value choice) later).1,
     (transformAll includeRawChunks (advance st value choice) later).2).
Proof.
  intros Hchoice. cbn [transformAll].
  rewrite (transform_success _ _ _ _ _ _ Hchoice). cbv zeta.
  fold (advance st value choice).
  by destruct (transformAll includeRawChunks (advance st value choice) later).
Qed.

(** Peels the first chunk of a run of [transformAll] by its three cases. *)
Ltac first_chunk chunk :=
  destruct (chunk_cases chunk)
    as [(?error & ?raw & ->)
       |[(?value & ?raw & -> & ?Hnone)
        |(?value & ?raw & ?choice & ?rest & -> & ?Hchoice)]];
  [ rewrite transformAll_failure
  | rewrite transformAll_no_choice by assumption
  | erewrite transformAll_success by eassumption ].

(** Decides the shape of the per-chunk part groups. *)
Ltac part_groups :=
  unfold rawParts, metadataParts, textParts, flush;
  repeat match goal with
         | |- context [bool_decide ?P] => destruct (bool_decide P)
         | |- context [if ?b then _ else _] => destruct b
         end;
  simpl.

(** ** Raw passthrough *)




(** ** Response metadata, error parts and the stream start *)

Lemma metadata_of_groups includeRawChunks chunk st value active text :
  omap metadataOf (rawParts includeRawChunks chunk) = []
  /\ omap metadataOf (metadataParts st value)
     = (if StreamState.isFirstChunk st then [metadataOfChunk value] else [])
  /\ omap metadataOf (textParts active text) = []
  /\ omap metadataOf (flush st) = [].
Proof. repeat split; by part_groups. Qed.

Lemma metadata_of_run includeRawChunks chunks :
  forall st,
    omap metadataOf (transformAll includeRawChunks st chunks).1
    = if StreamState.isFirstChunk st
      then match head (omap parsedValue chunks) with
           | Some value => [metadataOfChunk value]
           | None => []
           end
      else [].
Proof.
  induction chunks as [|chunk chunks IH]; intros st.
  { simpl. by destruct (StreamState.isFirstChunk st). }
  first_chunk chunk; cbn [fst]; rewrite !omap_app.
  - destruct (metadata_of_groups includeRawChunks (ParseFailure error raw)
                st (ChatChunk.mk None None None [] None) false "")
      as (-> & _).
    simpl. apply IH.
  - destruct (metadata_of_groups includeRawChunks (ParseSuccess value raw)
                st value false "") as (-> & -> & _).
    simpl. by destruct (StreamState.isFirstChunk st).
  - destruct (metadata_of_groups includeRawChunks (ParseSuccess value raw)
                st value (StreamState.activeText st)
                (deltaText (ChatChunk.content (ChatChunk.delta choice))))
      as (-> & -> & -> & _).
    rewrite IH. simpl. by destruct (StreamState.isFirstChunk st).
Qed.

(** X3: whatever the chunk sequence and however the stream ends, it holds
    exactly one response-metadata part when some chunk parsed, built from
    the id, model and creation time of the first chunk that parsed, and
    none when no chunk parsed; chunks that failed to parse before it do not
    use it up. *)
Theorem response_metadata_once warnings includeRawChunks chunks :
  omap metadataOf (partsOf (pipeThrough warnings includeRawChunks chunks))
  = match head (omap parsedValue chunks) with
    | Some value =>
        [getResponseMetadata (ChatChunk.id value) (ChatChunk.model value)
                             (ChatChunk.created value)]
    | None => []
    end.
Proof.
  unfold pipeThrough.
  pose proof (metadata_of_run includeRawChunks chunks StreamState.initial)
    as Hrun.
  destruct (transformAll includeRawChunks StreamState.initial chunks)
    as [parts [final|e]]; simpl in *.
  - rewrite omap_app, Hrun.
    destruct (metadata_of_groups None (ParseFailure "" JNull) final
                (ChatChunk.mk None None None [] None) false "")
      as (_ & _ & _ & ->).
    by rewrite app_nil_r.
  - exact Hrun.
Qed.




Lemma start_of_groups includeRawChunks chunk st value active text :
  omap startOf (rawParts includeRawChunks chunk) = []
  /\ omap startOf (metadataParts st value) = []
  /\ omap startOf (textParts active text) = []
  /\ omap startOf (flush st) = [].
Proof. repeat split; by part_groups. Qed.

Lemma start_of_run includeRawChunks chunks :
  forall st, omap startOf (transformAll includeRawChunks st chunks).1 = [].
Proof.
  induction chunks as [|chunk chunks IH]; intros st; [reflexivity|].
  first_chunk chunk; cbn [fst]; rewrite !omap_app.
  - destruct (start_of_groups includeRawChunks (ParseFailure error raw)
                st (ChatChunk.mk None None None [] None) false "")
      as (-> & _).
    simpl. apply IH.
  - by destruct (start_of_groups includeRawChunks (ParseSuccess value raw)
                   st value false "") as (-> & -> & _).
  - destruct (start_of_groups includeRawChunks (ParseSuccess value raw)
                st value (StreamState.activeText st)
                (deltaText (ChatChunk.content (ChatChunk.delta choice))))
      as (-> & -> & -> & _).
    simpl. apply IH.
Qed.

(** X5: every stream, closed or errored, even one over no chunks at all,
    begins with the stream-start part that carries the warnings, and has
    no other stream-start part. *)
Theorem stream_start_first_and_once warnings includeRawChunks chunks :
  exists others,
    partsOf (pipeThrough warnings includeRawChunks chunks)
    = StreamStart warnings :: others
    /\ omap startOf others = [].
Proof.
  unfold pipeThrough.
  pose proof (start_of_run includeRawChunks chunks StreamState.initial)
    as Hrun.
  destruct (transformAll includeRawChunks StreamState.initial chunks)
    as [parts [final|e]]; simpl in *.
  - eexists. split; [reflexivity|]. rewrite omap_app, Hrun.
    by destruct (start_of_groups None (ParseFailure "" JNull) final
                   (ChatChunk.mk None None None [] None) false "")
      as (_ & _ & _ & ->).
  - by eexists.
Qed.

(** ** The finish reason and the text span of any closed stream *)

Lemma finish_reason_of_run includeRawChunks chunks :
  forall st parts final,
    transformAll includeRawChunks st chunks = (parts, Ok final) ->
    StreamState.finishReason final
    = match last (omap chunkFinishReason chunks) with
      | Some reason => mapMistralFinishReason (Some reason)
      | None => StreamState.finishReason st
      end.
Proof.
  induction chunks as [|chunk chunks IH]; intros st parts final.
  { simpl. by intros [= _ ->]. }
  first_chunk chunk.
  - intros [= _ Hfinal].
    destruct (transformAll includeRawChunks st chunks) as [later result]
      eqn:Hrun.
    simpl in Hfinal. subst result. simpl. by eapply IH.
  - discriminate.
  - intros [= _ Hfinal].
    destruct (transformAll includeRawChunks (advance st value choice) chunks)
      as [later result] eqn:Hrun.
    simpl in Hfinal. subst result.
    rewrite (IH _ _ _ Hrun).
    unfold chunkFinishReason at 2. simpl. rewrite Hchoice. simpl.
    destruct (ChatChunk.finish_reason choice) as [reason|]; simpl;
      [|reflexivity].
    rewrite last_cons. by destruct (last _).
Qed.

(** X6: the finish part of a closed stream carries the mapping of the last
    non-null finish reason seen on the first choice of a parsed chunk, and
    unknown when no chunk carried one: a later finish reason overwrites an
    earlier one, a null one keeps it. *)
Theorem finish_reason_is_last_seen warnings includeRawChunks chunks :
  match pipeThrough warnings includeRawChunks chunks with
  | Closed parts =>
      exists usage,
        last parts
        = Some (FinishPart
                  (match last (omap chunkFinishReason chunks) with
                   | Some reason => mapMistralFinishReason (Some reason)
                   | None => FinishUnknown
                   end)
                  usage)
  | Errored _ _ => Exists lacksChoice chunks
  end.
Proof.
  pose proof (pipeThrough_outcome warnings includeRawChunks chunks) as Hout.
  unfold pipeThrough in *.
  destruct (transformAll includeRawChunks StreamState.initial chunks)
    as [parts [final|e]] eqn:Hrun.
  - exists (StreamState.usage final).
    pose proof (finish_reason_of_run _ _ _ _ _ Hrun) as Hreason.
    change (StreamState.finishReason StreamState.initial)
      with FinishUnknown in Hreason.
    rewrite <- Hreason.
    unfold flush. by rewrite !app_assoc, last_snoc.
  - by destruct Hout as (_ & _ & Hex).
Qed.

Lemma textSpan_flush st :
  textSpan (flush st) = flush st.
Proof. unfold flush. by destruct (StreamState.activeText st). Qed.

(** As [transformAll_delta_chunks], with chunks that failed to parse
    allowed in between: they carry no text. *)
Lemma transformAll_text_span includeRawChunks chunks :
  Forall (fun chunk => ~ lacksChoice chunk) chunks ->
  forall st,
    let texts := filter (fun text => text <> "") (chunkText <$> chunks) in
    exists parts final,
      transformAll includeRawChunks st chunks = (parts, Ok final)
      /\ textSpan parts
         = (if StreamState.activeText st || bool_decide (texts = [])
            then [] else [TextStart "0"])
           ++ (TextDelta "0" <$> texts)
      /\ StreamState.activeText final
         = StreamState.activeText st || negb (bool_decide (texts = [])).
Proof.
  induction 1 as [|chunk chunks Hhas _ IH]; intros st texts.
  { exists [], st. subst texts. simpl.
    by rewrite !orb_true_r, orb_false_r. }
  destruct (chunk_cases chunk)
    as [(error & raw & ->)
       |[(value & raw & -> & Hnone)
        |(value & raw & choice & rest & -> & Hchoice)]].
  - rewrite transformAll_failure.
    destruct (IH st) as (later & final & Hrun & Hspan & Hactive).
    rewrite Hrun. eexists _, final. split; [reflexivity|].
    subst texts. rewrite fmap_cons, filter_cons.
    destruct (decide (chunkText (ParseFailure error raw) <> ""))
      as [Hbad|_]; [by destruct Hbad|].
    rewrite !textSpan_app, textSpan_rawParts. simpl. by split.
  - by destruct Hhas.
  - rewrite (transformAll_success _ _ _ _ _ _ _ Hchoice).
    destruct (IH (advance st value choice))
      as (later & final & Hrun & Hspan & Hactive).
    rewrite Hrun. eexists _, final. split; [reflexivity|].
    set (text := deltaText (ChatChunk.content (ChatChunk.delta choice))) in *.
    assert (Htext : chunkText (ParseSuccess value raw) = text).
    { unfold chunkText. simpl. by rewrite Hchoice. }
    unfold advance in Hspan, Hactive.
    simpl StreamState.activeText in Hspan, Hactive.
    fold text in Hspan, Hactive. clearbody text.
    cbn [fst]. rewrite !textSpan_app, textSpan_rawParts,
      textSpan_metadataParts, textSpan_textParts, Hspan, Hactive.
    subst texts. rewrite fmap_cons, filter_cons, Htext.
    unfold textParts.
    destruct (decide (text <> "")) as [Hsome|Hnone].
    + rewrite (bool_decide_eq_false_2 (text = "")) by exact Hsome.
      rewrite (bool_decide_eq_false_2 (text :: _ = [])) by discriminate.
      simpl. rewrite !orb_true_r, orb_false_r. simpl.
      split; [by rewrite <- app_assoc | reflexivity].
    + apply dec_stable in Hnone. rewrite !Hnone.
      rewrite (bool_decide_eq_true_2 ("" = "")) by reflexivity.
      simpl. by rewrite !orb_false_r.
Qed.

(** X7: a stream in which no delta carries text (every parsed chunk has a
    first choice and extracts no text, chunks that failed to parse
    allowed) closes with no text-start, text-delta or text-end part, and
    still with its stream-start first and exactly one finish part last. *)
Theorem no_text_no_span warnings includeRawChunks chunks :
  Forall (fun chunk => ~ lacksChoice chunk) chunks ->
  Forall (fun chunk => chunkText chunk = "") chunks ->
  exists middle finishReason usage,
    pipeThrough warnings includeRawChunks chunks
    = Closed (StreamStart warnings :: middle
              ++ [FinishPart finishReason usage])
    /\ textSpan middle = []
    /\ omap startOf middle = [].
Proof.
  intros Hhas Hempty.
  destruct (transformAll_text_span includeRawChunks chunks Hhas
              StreamState.initial)
    as (parts & final & Hrun & Hspan & Hactive).
  assert (Htexts : filter (fun text => text <> "") (chunkText <$> chunks) = []).
  { clear -Hempty. induction Hempty as [|chunk chunks Htext _ IH];
      [reflexivity|].
    rewrite fmap_cons, filter_cons, Htext.
    by destruct (decide ("" <> "")). }
  cbv zeta in Hspan, Hactive. rewrite Htexts in Hspan, Hactive.
  simpl in Hspan, Hactive.
  exists parts, (StreamState.finishReason final), (StreamState.usage final).
  split; [|split].
  - unfold pipeThrough. rewrite Hrun. unfold flush. by rewrite Hactive.
  - exact Hspan.
  - pose proof (start_of_run includeRawChunks chunks StreamState.initial)
      as Hstart.
    by rewrite Hrun in Hstart.
Qed.

Lemma no_text_no_span_witness :
  exists middle finishReason usage,
    pipeThrough [UnsupportedSetting "topK"] (Some true)
      [testChunk (ContentString "") None None;
       ParseFailure "Unexpected token" JNull;
       testChunk (ContentParts [PartThinking ["hm"]]) (Some "stop")
                 (Some testUsage)]
    = Closed (StreamStart [UnsupportedSetting "topK"] :: middle
              ++ [FinishPart finishReason usage])
    /\ textSpan middle = []
    /\ omap startOf middle = [].
Proof.
  apply no_text_no_span.
  - repeat first [apply Forall_nil_2 | apply Forall_cons_2]; simpl;
      first [discriminate | tauto].
  - repeat first [apply Forall_nil_2 | apply Forall_cons_2]; reflexivity.
Defined.

(** X8: in any closed stream, chunks that failed to parse included, the
    text parts are either none at all, when no chunk carried text, or one
    text-start, one text-delta per non-empty extracted text in chunk
    order, and one text-end, all on span "0"; the finish part follows, and
    no delta is ever empty. *)
Theorem text_span_of_closed_stream warnings includeRawChunks chunks :
  Forall (fun chunk => ~ lacksChoice chunk) chunks ->
  let texts := filter (fun text => text <> "") (chunkText <$> chunks) in
  exists parts finishReason usage,
    pipeThrough warnings includeRawChunks chunks = Closed parts
    /\ textSpan parts
       = (if bool_decide (texts = []) then []
          else TextStart "0" :: (TextDelta "0" <$> texts) ++ [TextEnd "0"])
         ++ [FinishPart finishReason usage]
    /\ Forall (fun text => text <> "") texts.
Proof.
  intros Hhas texts.
  destruct (transformAll_text_span includeRawChunks chunks Hhas
              StreamState.initial)
    as (parts & final & Hrun & Hspan & Hactive).
  fold texts in Hspan, Hactive. simpl in Hspan, Hactive.
  eexists _, (StreamState.finishReason final), (StreamState.usage final).
  split; [|split].
  - unfold pipeThrough. by rewrite Hrun.
  - rewrite !textSpan_app, Hspan, textSpan_flush. unfold flush.
    rewrite Hactive. simpl.
    case_bool_decide as Hnone; simpl.
    + by rewrite Hnone.
    + by rewrite <- app_assoc.
  - subst texts. apply Forall_forall. intros text Hin.
    by apply list_elem_of_filter in Hin as [Hsome _].
Qed.

Lemma text_span_of_closed_stream_witness :
  let chunks :=
    [testChunk (ContentString "Hello") None None;
     ParseFailure "Unexpected token" JNull;
     testChunk (ContentParts [PartText ", "; PartImageUrl (ImageUrlString "u");
                              PartText "world!"])
               (Some "stop") (Some testUsage)] in
  exists parts finishReason usage,
    pipeThrough [] None chunks = Closed parts
    /\ textSpan parts
       = (TextStart "0"
          :: (TextDelta "0" <$> ["Hello"; ", world!"]) ++ [TextEnd "0"])
         ++ [FinishPart finishReason usage]
    /\ Forall (fun text => text <> "") ["Hello"; ", world!"].
Proof.
  intros chunks.
  apply (text_span_of_closed_stream [] None chunks).
  repeat first [apply Forall_nil_2 | apply Forall_cons_2]; simpl;
    first [discriminate | tauto].
Defined.

(** ** Requests *)

(** X9: doGenerate and doStream dispatch at most one request per call and
    never touch the requests logged before: none when building the request
    or loading the headers fails, and otherwise exactly the one POST to
    [baseURL + "/fim/completions"] with the merged headers and the built
    arguments, whatever the endpoint answers.  The streaming call sends the
    same request with the stream flag set. *)
Theorem one_request_per_call this net options log :
  let sent stream :=
    match getArgs this options, config_headers (config this) with
    | Ok (args, _), Ok configured =>
        [ {| post_url := baseURL (config this) +:+ "/fim/completions";
             post_headers := default ∅ (Call.headers options) ∪ configured;
             post_body := {| body_args := args; body_stream := stream |} |} ]
    | _, _ => []
    end in
  (doGenerate this net options log).2 = log ++ sent None
  /\ (doStream this net options log).2 = log ++ sent (Some true)
  /\ sent (Some true) = asStreaming <$> sent None.
Proof.
  cbv zeta. unfold doGenerate, doStream.
  cbv [mbind M_bind liftResult postJsonToApi mret M_ret throw].
  destruct (getArgs this options) as [[args warnings]|e];
    [|by rewrite app_nil_r].
  destruct (config_headers (config this)) as [configured|e];
    [|by rewrite app_nil_r].
  split; [|split]; [| |reflexivity].
  - destruct (jsonHandler net _) as [answer|e]; [|reflexivity].
    by destruct (ChatResponse.choices (json_value answer) !! 0).
  - by destruct (eventSourceHandler net _).
Qed.

(** X10: failures keep their order and are passed on unchanged.  A failure
    to load the headers (the API key) surfaces only after the request was
    built, as the failure of the call, with nothing dispatched; a rejection
    by the transport is the failure of the call, after the one request,
    and no second attempt is made. *)
Theorem failures_are_passed_on this net options log args warnings :
  getArgs this options = Ok (args, warnings) ->
  (forall e,
      config_headers (config this) = Throw e ->
      doGenerate this net options log = (Throw e, log)
      /\ doStream this net options log = (Throw e, log))
  /\ (forall configured e,
         config_headers (config this) = Ok configured ->
         let request stream :=
           fimCompletionsRequest this configured options
             {| body_args := args; body_stream := stream |} in
         (jsonHandler net (request None) = Throw e ->
          doGenerate this net options log = (Throw e, log ++ [request None]))
         /\ (eventSourceHandler net (request (Some true)) = Throw e ->
             doStream this net options log
             = (Throw e, log ++ [request (Some true)]))).
Proof.
  intros Hargs. split.
  - intros e Hheaders. unfold doGenerate, doStream.
    cbv [mbind M_bind liftResult]. by rewrite Hargs, Hheaders.
  - intros configured e Hheaders request. unfold doGenerate, doStream.
    cbv [mbind M_bind liftResult postJsonToApi]. rewrite Hargs, Hheaders.
    split; intros Hanswer; subst request; simpl in *; by rewrite Hanswer.
Qed.

Lemma failures_are_passed_on_witness :
  let net :=
    {| jsonHandler := fun _ => Throw (APICallError "503");
       eventSourceHandler := fun _ => Throw (APICallError "503") |} in
  let request stream :=
    fimCompletionsRequest testModel
      {[ "Authorization" := "Bearer test-api-key" ]}
      (callWithPrompt TEST_PROMPT)
      {| body_args :=
           Args.mk "mistral-small-latest" None None None None None "Hello"
                   None None;
         body_stream := stream |} in
  doGenerate testModel net (callWithPrompt TEST_PROMPT) []
  = (Throw (APICallError "503"), [] ++ [request None])
  /\ doStream testModel net (callWithPrompt TEST_PROMPT) []
     = (Throw (APICallError "503"), [] ++ [request (Some true)]).
Proof.
  intros net request.
  destruct (failures_are_passed_on testModel net (callWithPrompt TEST_PROMPT)
              [] _ _ eq_refl) as [_ Htransport].
  destruct (Htransport _ (APICallError "503") eq_refl) as [Hjson Hsse].
  split; [apply Hjson | apply Hsse]; reflexivity.
Defined.

(** X11: what the builder returned is what the caller gets back: the
    result of doGenerate echoes the posted body and carries the builder's
    warnings, and the result of doStream echoes the posted body, with the
    stream flag, and its stream starts with the builder's warnings. *)
Theorem results_echo_the_build this net options log args warnings :
  getArgs this options = Ok (args, warnings) ->
  (forall result,
      (doGenerate this net options log).1 = Ok result ->
      GenerateResult.warnings result = warnings
      /\ GenerateResult.request_body result
         = {| body_args := args; body_stream := None |}
      /\ post_body <$> last (doGenerate this net options log).2
         = Some (GenerateResult.request_body result))
  /\ (forall result,
         (doStream this net options log).1 = Ok result ->
         head (partsOf (StreamResult.stream result))
         = Some (StreamStart warnings)
         /\ StreamResult.request_body result
            = {| body_args := args; body_stream := Some true |}
         /\ post_body <$> last (doStream this net options log).2
            = Some (StreamResult.request_body result)).
Proof.
  intros Hargs. unfold doGenerate, doStream.
  cbv [mbind M_bind liftResult postJsonToApi mret M_ret throw].
  rewrite Hargs.
  destruct (config_headers (config this)) as [configured|e];
    [|split; intros result; discriminate].
  split; intros result.
  - destruct (jsonHandler net _) as [answer|e]; [|discriminate].
    destruct (ChatResponse.choices (json_value answer) !! 0);
      [|discriminate].
    intros [= <-]. simpl. by rewrite last_snoc.
  - destruct (eventSourceHandler net _) as [answer|e]; [|discriminate].
    intros [= <-]. simpl. rewrite last_snoc. split; [|done].
    unfold pipeThrough.
    by destruct (transformAll _ _ _) as [parts [final|e']].
Qed.

Lemma results_echo_the_build_witness :
  let options :=
    withGenericSettings (callWithPrompt TEST_PROMPT)
      (Some 40%Z) None None None None None None in
  let net :=
    testServer (jsonResponse [] testUsage) (prepareStreamResponse ["a"]) in
  exists result,
    (doStream testModel net options []).1 = Ok result
    /\ head (partsOf (StreamResult.stream result))
       = Some (StreamStart [UnsupportedSetting "topK"])
    /\ StreamResult.request_body result
       = {| body_args :=
              Args.mk "mistral-small-latest" None None None None None
                      "Hello" None None;
            body_stream := Some true |}.
Proof.
  intros options net. eexists. split; [reflexivity|].
  destruct (results_echo_the_build testModel net options [] _ _ eq_refl)
    as [_ Hstream].
  destruct (Hstream _ eq_refl) as (Hhead & Hbody & _).
  split; [exact Hhead | exact Hbody].
Defined.

(** ** The request builder: edge cases *)

(** X12: a first user text part that is the empty string is an empty
    prompt, even when non-empty text parts or further user messages
    follow it: nothing is built, nothing is dispatched, and the error is
    the empty-prompt error unless the provider options fail validation
    first. *)
Theorem empty_first_text_is_empty_prompt this net options log
    before content after :
  Call.prompt options = before ++ UserMessage content :: after ->
  (forall skipped, UserMessage skipped ∈ before ->
                   firstTextPart skipped = None) ->
  firstTextPart content = Some "" ->
  exists e,
    getArgs this options = Throw e
    /\ match parseProviderOptions (provider (config this))
                                  (Call.providerOptions options) with
       | Ok _ => e = EmptyPromptError
       | Throw invalid => e = invalid
       end
    /\ doGenerate this net options log = (Throw e, log)
    /\ doStream this net options log = (Throw e, log).
Proof.
  intros Hsplit Hskip Hfirst.
  assert (Hthrows : exists e,
             getArgs this options = Throw e
             /\ match parseProviderOptions (provider (config this))
                                           (Call.providerOptions options) with
                | Ok _ => e = EmptyPromptError
                | Throw invalid => e = invalid
                end).
  { rewrite getArgs_cases, Hsplit.
    rewrite (extractUserPromptContent_skip _ _ Hskip). simpl.
    rewrite Hfirst. simpl.
    destruct (parseProviderOptions _ _); by eexists. }
  destruct Hthrows as (e & Hargs & Hkind). exists e.
  repeat split; [exact Hargs | exact Hkind | |].
  - by apply doGenerate_getArgs_throws.
  - by apply doStream_getArgs_throws.
Qed.

Lemma empty_first_text_is_empty_prompt_witness :
  let options :=
    callWithPrompt [fileOnlyMessage;
                    UserMessage [UserText ""; UserText "def f():"];
                    UserMessage [UserText "later"]] in
  let net := testServer (jsonResponse [] testUsage) [] in
  getArgs testModel options = Throw EmptyPromptError
  /\ doGenerate testModel net options [] = (Throw EmptyPromptError, [])
  /\ doStream testModel net options [] = (Throw EmptyPromptError, []).
Proof.
  intros options net.
  destruct (empty_first_text_is_empty_prompt testModel net options []
              [fileOnlyMessage] [UserText ""; UserText "def f():"]
              [UserMessage [UserText "later"]])
    as (e & Hargs & Hkind & Hgenerate & Hstream).
  - reflexivity.
  - intros skipped Hin. apply list_elem_of_singleton in Hin.
    by injection Hin as ->.
  - reflexivity.
  - simpl in Hkind. subst e. by repeat split.
Defined.

(** ** The provider option schema *)

Lemma asStrings_encode (l : list string) : asStrings (JString <$> l) = Some l.
Proof.
  induction l as [|s l IH]; [reflexivity|].
  rewrite fmap_cons. cbn [asStrings asString]. by rewrite IH.
Qed.

Lemma asStrings_decode (items : list JSONValue) (l : list string) :
  asStrings items = Some l -> items = JString <$> l.
Proof.
  revert l. induction items as [|v items IH]; intros l.
  { by intros [= <-]. }
  simpl. destruct v; simpl; try discriminate.
  destruct (asStrings items) as [l'|]; [|discriminate].
  intros [= <-]. by rewrite (IH l' eq_refl).
Qed.

Lemma validateStop_iff v stop :
  validateStop v = Some stop <-> v = encodeStop <$> stop.
Proof.
  split.
  - destruct v as [[]|]; simpl; try discriminate;
      try (by intros [= <-]).
    destruct (asStrings items) as [l|] eqn:Hitems; simpl; [|discriminate].
    intros [= <-]. simpl. by rewrite (asStrings_decode _ _ Hitems).
  - intros ->. destruct stop as [[s|l]|]; simpl; try reflexivity.
    by rewrite asStrings_encode.
Qed.

Lemma validateSuffix_iff v suffix :
  validateSuffix v = Some suffix <-> v = JString <$> suffix.
Proof.
  split.
  - destruct v as [[]|]; simpl; try discriminate; by intros [= <-].
  - intros ->. by destruct suffix.
Qed.

Lemma validateMinToken_iff v min_token :
  validateMinToken v = Some min_token <-> v = JNumber <$> min_token.
Proof.
  split.
  - destruct v as [[]|]; simpl; try discriminate; by intros [= <-].
  - intros ->. by destruct min_token.
Qed.

(** X13: the schema accepts an entry exactly when each of its keys stop,
    suffix and min_token is missing or holds a value of its type (a string
    or an array of strings; a string; a number), and then returns those
    values; so null and values of another type are rejected, and spelling
    out a parsed record and validating it gives the record back. *)
Theorem schema_accepts_exactly (entry : gmap string JSONValue) (o : Options.t) :
  (mistralFimProviderOptions entry = Some o
   <-> entry !! "stop" = encodeStop <$> Options.stop o
       /\ entry !! "suffix" = JString <$> Options.suffix o
       /\ entry !! "min_token" = JNumber <$> Options.min_token o)
  /\ mistralFimProviderOptions (encodeOptions o) = Some o.
Proof.
  assert (Hiff : forall entry' : gmap string JSONValue,
             mistralFimProviderOptions entry' = Some o
             <-> entry' !! "stop" = encodeStop <$> Options.stop o
                 /\ entry' !! "suffix" = JString <$> Options.suffix o
                 /\ entry' !! "min_token" = JNumber <$> Options.min_token o).
  { intros entry'. unfold mistralFimProviderOptions. split.
    - destruct (validateStop _) as [stop|] eqn:Hstop; [|discriminate].
      destruct (validateSuffix _) as [suffix|] eqn:Hsuffix; [|discriminate].
      destruct (validateMinToken _) as [min_token|] eqn:Hmin; [|discriminate].
      simpl. intros [= <-]. simpl.
      by rewrite <- validateStop_iff, <- validateSuffix_iff,
                 <- validateMinToken_iff.
    - intros (Hstop & Hsuffix & Hmin).
      apply validateStop_iff in Hstop. apply validateSuffix_iff in Hsuffix.
      apply validateMinToken_iff in Hmin.
      rewrite Hstop, Hsuffix, Hmin. simpl. by destruct o. }
  split; [apply Hiff|].
  apply Hiff. destruct o as [[stop|] [suffix|] [min_token|]]; by vm_compute.
Qed.



(** X15: the warnings the builder returns are a selection of the seven
    unsupported-setting warnings in the fixed order topK, frequencyPenalty,
    presencePenalty, stopSequences, responseFormat, tools, toolChoice, none
    of them twice; they do not depend on the prompt or on the provider
    options. *)
Theorem warnings_in_fixed_order this options args warnings :
  getArgs this options = Ok (args, warnings) ->
  warnings `sublist_of` unsupportedSettings
  /\ NoDup warnings
  /\ forall this' prompt providerOptions args' warnings',
      getArgs this' (withPrompt (withProviderOptions options providerOptions)
                                prompt)
      = Ok (args', warnings') ->
      warnings' = warnings.
Proof.
  intros Hbuilt. rewrite getArgs_cases in Hbuilt.
  destruct (parseProviderOptions _ _) as [parsed|]; [|discriminate].
  destruct (extractUserPromptContent _) as [prefix|]; [|discriminate].
  case_bool_decide; [discriminate|].
  injection Hbuilt as _ <-.
  split; [|split].
  - unfold unsupportedSettings.
    destruct (Call.topK options), (Call.frequencyPenalty options),
      (Call.presencePenalty options), (Call.stopSequences options),
      (Call.responseFormat options), (Call.tools options),
      (Call.toolChoice options); simpl;
      repeat first [apply sublist_nil | apply sublist_skip
                   | apply sublist_cons].
  - destruct (Call.topK options), (Call.frequencyPenalty options),
      (Call.presencePenalty options), (Call.stopSequences options),
      (Call.responseFormat options), (Call.tools options),
      (Call.toolChoice options); simpl;
      apply (bool_decide_unpack _); by vm_compute.
  - intros this' prompt providerOptions args' warnings' Hbuilt'.
    rewrite getArgs_cases in Hbuilt'. simpl in Hbuilt'.
    destruct (parseProviderOptions _ _) as [parsed'|]; [|discriminate].
    destruct (extractUserPromptContent _) as [prefix'|]; [|discriminate].
    case_bool_decide; [discriminate|].
    by injection Hbuilt' as _ <-.
Qed.

Lemma warnings_in_fixed_order_witness :
  let options :=
    withGenericSettings (callWithPrompt TEST_PROMPT)
      None None None None None (Some []) (Some ChoiceNone) in
  let warnings := [UnsupportedSetting "tools"; UnsupportedSetting "toolChoice"] in
  getArgs testModel options
  = Ok (Args.mk "mistral-small-latest" None None None None None "Hello"
                None None, warnings)
  /\ warnings `sublist_of` unsupportedSettings
  /\ NoDup warnings.
Proof.
  intros options warnings. split; [reflexivity|].
  destruct (warnings_in_fixed_order testModel options _ warnings eq_refl)
    as (Hsub & Hnodup & _).
  by split.
Defined.

(** ** Content extraction *)

Lemma string_app_assoc (a b c : string) : (a +:+ b) +:+ c = a +:+ b +:+ c.
Proof.
  induction a as [|x a IH]; [reflexivity|].
  by rewrite !string_app_cons, IH.
Qed.

Lemma join_app (l k : list string) : join (l ++ k) = join l +:+ join k.
Proof.
  induction l as [|s l IH]; [reflexivity|].
  rewrite <- app_comm_cons, !join_cons, IH. by rewrite string_app_assoc.
Qed.

Lemma partText_filter (parts : list MistralContentPart) :
  omap partText (filter (fun part => isTextPart part) parts)
  = omap partText parts.
Proof.
  induction parts as [|part parts IH]; [reflexivity|].
  rewrite filter_cons.
  destruct part; simpl; [f_equal; exact IH | exact IH ..].
Qed.

Lemma partText_none (parts : list MistralContentPart) :
  omap partText parts = []
  <-> Forall (fun part => isTextPart part = false) parts.
Proof.
  induction parts as [|part parts IH].
  { split; [intros _; constructor | reflexivity]. }
  destruct part; simpl; rewrite ?Forall_cons; try (rewrite IH; tauto).
  split; [discriminate | by intros [? _]].
Qed.

(** X16: flattening a content array looks at its text parts only: image,
    reference and thinking parts can be removed without changing the
    result; the result is undefined exactly when the array has no text
    part at all; when it has one, the result is the texts of its text
    parts concatenated in order, so an array whose text parts are all
    empty gives the empty string and not undefined; and the text extracted
    from two arrays put one after the other is the two texts
    concatenated. *)
Theorem only_text_parts_are_extracted (parts more : list MistralContentPart) :
  extractTextContent (ContentParts (filter (fun part => isTextPart part) parts))
  = extractTextContent (ContentParts parts)
  /\ (extractTextContent (ContentParts parts) = None
      <-> Forall (fun part => isTextPart part = false) parts)
  /\ (Exists (fun part => isTextPart part = true) parts ->
      extractTextContent (ContentParts parts)
      = Some (foldr (fun part text =>
                       match part with
                       | PartText first => first +:+ text
                       | _ => text
                       end)
                    "" parts))
  /\ (Exists (fun part => isTextPart part = true) parts ->
      Forall (fun part => isTextPart part = true -> part = PartText "") parts ->
      extractTextContent (ContentParts parts) = Some "")
  /\ deltaText (ContentParts (parts ++ more))
     = deltaText (ContentParts parts) +:+ deltaText (ContentParts more).
Proof.
  assert (Hnone : extractTextContent (ContentParts parts) = None
                  <-> Forall (fun part => isTextPart part = false) parts).
  { rewrite <- partText_none. simpl.
    case_bool_decide as Hlen.
    + split; [intros _; by apply length_zero_iff_nil | reflexivity].
    + split; [discriminate|]. intros Hno. by rewrite Hno in Hlen. }
  assert (Hfold : forall l,
             join (omap partText l)
             = foldr (fun part text =>
                        match part with
                        | PartText first => first +:+ text
                        | _ => text
                        end)
                     "" l).
  { induction l as [|part l IH]; [reflexivity|].
    destruct part; simpl; try exact IH.
    rewrite join_cons. f_equal. exact IH. }
  assert (Hsome : Exists (fun part => isTextPart part = true) parts ->
                  extractTextContent (ContentParts parts)
                  = Some (join (omap partText parts))).
  { intros Hex. simpl. case_bool_decide as Hlen; [|reflexivity].
    exfalso. apply length_zero_iff_nil, partText_none in Hlen.
    apply Exists_exists in Hex as (part & Hin & Htext).
    rewrite Forall_forall in Hlen. specialize (Hlen part Hin). congruence. }
  split; [|split; [exact Hnone|split; [|split]]].
  - simpl. by rewrite partText_filter.
  - intros Hex. by rewrite (Hsome Hex), Hfold.
  - intros Hex Hempty. rewrite (Hsome Hex). f_equal.
    clear -Hempty. induction parts as [|part parts IH]; [reflexivity|].
    apply Forall_cons in Hempty as [Hpart Hrest].
    destruct part as [text| | |]; simpl; try by apply IH.
    specialize (Hpart eq_refl). injection Hpart as ->.
    rewrite join_cons. by apply IH.
  - assert (Htext : forall l, deltaText (ContentParts l)
                              = join (omap partText l)).
    { intros l. unfold deltaText. simpl. case_bool_decide as Hlen; [|done].
      apply length_zero_iff_nil in Hlen. by rewrite Hlen. }
    by rewrite !Htext, omap_app, join_app.
Qed.

Lemma only_text_parts_are_extracted_witness :
  let parts :=
    [PartText ""; PartThinking ["hm"]; PartText "";
     PartReference [1%Z; 2%Z]] in
  extractTextContent (ContentParts parts) = Some ""
  /\ extractTextContent
       (ContentParts [PartText "de"; PartImageUrl (ImageUrlString "u");
                      PartText "f f():"])
     = Some ("de" +:+ "f f():" +:+ "").
Proof.
  intros parts. split.
  - refine (proj1 (proj2 (proj2 (proj2
              (only_text_parts_are_extracted parts [])))) _ _).
    + apply Exists_cons_hd. reflexivity.
    + repeat first [apply Forall_nil_2 | apply Forall_cons_2];
        simpl; first [discriminate | reflexivity].
  - refine (proj1 (proj2 (proj2
              (only_text_parts_are_extracted
                 [PartText "de"; PartImageUrl (ImageUrlString "u");
                  PartText "f f():"] []))) _).
    apply Exists_cons_hd. reflexivity.
Defined.

(** X17: the content array of doGenerate never holds an empty text item:
    its items are the non-empty texts, in order, of the plain string (at
    most one item) or of the text parts of the array, and nothing for null
    or undefined content. *)
Theorem content_items_are_the_nonempty_texts (content : MistralContent) :
  Forall (fun item => itemText item <> "") (generateContent content)
  /\ itemText <$> generateContent content
     = filter (fun text => text <> "")
         (match content with
          | ContentString s => [s]
          | ContentParts parts => omap partText parts
          | ContentNull | ContentUndefined => []
          end).
Proof.
  assert (Hitems :
    itemText <$> generateContent content
    = filter (fun text => text <> "")
        (match content with
         | ContentString s => [s]
         | ContentParts parts => omap partText parts
         | ContentNull | ContentUndefined => []
         end)).
  { destruct content as [s|parts| |]; simpl; try reflexivity.
    - destruct s as [|a s]; [reflexivity|].
      rewrite bool_decide_eq_true_2 by (simpl; lia). reflexivity.
    - induction parts as [|part parts IH]; [reflexivity|].
      destruct part as [text| | |]; simpl; try exact IH.
      rewrite filter_cons. destruct text as [|a text]; simpl.
      + exact IH.
      + f_equal. exact IH. }
  split; [|exact Hitems].
  apply Forall_forall. intros item Hin.
  assert (Hmem : itemText item ∈ itemText <$> generateContent content)
    by (by apply list_elem_of_fmap_2).
  rewrite Hitems in Hmem.
  by apply list_elem_of_filter in Hmem as [Hsome _].
Qed.

Lemma firstTextPart_text_only (content : list UserContentPart) :
  firstTextPart (filter (fun part => isUserText part) content)
  = firstTextPart content.
Proof.
  induction content as [|part content IH]; [reflexivity|].
  rewrite filter_cons. destruct part; simpl; [reflexivity | exact IH].
Qed.

Lemma extractUserPromptContent_text_only (prompt : list Message) :
  extractUserPromptContent (userTextOnly prompt)
  = extractUserPromptContent prompt.
Proof.
  induction prompt as [|message prompt IH]; [reflexivity|].
  destruct message as [c|c|c|c]; simpl; try exact IH.
  rewrite firstTextPart_text_only.
  destruct (firstTextPart c); [reflexivity | exact IH].
Qed.

Lemma userTextOnly_app (a b : list Message) :
  userTextOnly (a ++ b) = userTextOnly a ++ userTextOnly b.
Proof. apply omap_app. Qed.

(** X18: the prompt text is read from the text parts of user messages
    only: what the builder returns is the same for two prompts that have
    the same user messages with the same text parts, in order.  So a
    system, assistant or tool message can be added or removed anywhere in
    the prompt, and a file part anywhere in any user message, without
    changing what the builder returns. *)
Theorem prompt_is_read_from_user_text_only this options :
  (forall prompt prompt',
      userTextOnly prompt = userTextOnly prompt' ->
      extractUserPromptContent prompt = extractUserPromptContent prompt'
      /\ getArgs this (withPrompt options prompt)
         = getArgs this (withPrompt options prompt'))
  /\ (forall before message after,
         isUserMessage message = false ->
         getArgs this (withPrompt options (before ++ message :: after))
         = getArgs this (withPrompt options (before ++ after)))
  /\ (forall before parts filename data mediaType parts' after,
         getArgs this
           (withPrompt options
              (before
               ++ UserMessage
                    (parts ++ UserFile filename data mediaType :: parts')
               :: after))
         = getArgs this
             (withPrompt options
                (before ++ UserMessage (parts ++ parts') :: after))).
Proof.
  assert (Hsame : forall prompt prompt',
             userTextOnly prompt = userTextOnly prompt' ->
             extractUserPromptContent prompt = extractUserPromptContent prompt'
             /\ getArgs this (withPrompt options prompt)
                = getArgs this (withPrompt options prompt')).
  { intros prompt prompt' Hnormal.
    assert (Hextract : extractUserPromptContent prompt
                       = extractUserPromptContent prompt').
    { by rewrite <- (extractUserPromptContent_text_only prompt),
                 <- (extractUserPromptContent_text_only prompt'), Hnormal. }
    split; [exact Hextract|].
    rewrite !getArgs_cases. simpl. by rewrite Hextract. }
  split; [exact Hsame|]. split.
  - intros before message after Hother. apply Hsame.
    rewrite !userTextOnly_app. f_equal.
    by destruct message.
  - intros before parts filename data mediaType parts' after. apply Hsame.
    rewrite !userTextOnly_app. f_equal. simpl. do 2 f_equal.
    by rewrite !filter_app, filter_cons.
Qed.

Lemma prompt_is_read_from_user_text_only_witness :
  let options := callWithPrompt [] in
  getArgs testModel
    (withPrompt options
       [SystemMessage "Complete the code.";
        AssistantMessage [AssistantText "prefix "];
        UserMessage [UserFile None "iVBORw0KGgo=" "image/png";
                     UserText "Hello"];
        ToolMessage []])
  = getArgs testModel (withPrompt options [UserMessage [UserText "Hello"]])
  /\ getArgs testModel (withPrompt options [UserMessage [UserText "Hello"]])
     = Ok (Args.mk "mistral-small-latest" None None None None None "Hello"
                   None None, []).
Proof.
  intros options. split; [|reflexivity].
  apply (proj1 (prompt_is_read_from_user_text_only testModel options)).
  reflexivity.
Defined.

(** ** The provider factory *)

Lemma dispatched_requests this net options :
  let sent stream :=
    match getArgs this options, config_headers (config this) with
    | Ok (args, _), Ok configured =>
        [fimCompletionsRequest this configured options
           {| body_args := args; body_stream := stream |}]
    | _, _ => []
    end in
  (doGenerate this net options []).2 = sent None
  /\ (doStream this net options []).2 = sent (Some true).
Proof.
  cbv zeta. unfold doGenerate, doStream.
  cbv [mbind M_bind liftResult postJsonToApi mret M_ret throw].
  destruct (getArgs this options) as [[args warnings]|e]; [|done].
  destruct (config_headers (config this)) as [configured|e]; [|done].
  split.
  - destruct (jsonHandler net _) as [answer|e]; [|reflexivity].
    by destruct (ChatResponse.choices (json_value answer) !! 0).
  - by destruct (eventSourceHandler net _).
Qed.

(** A request of a call is one that doGenerate or doStream dispatches. *)
Lemma request_of_call this net options request :
  request ∈ (doGenerate this net options []).2
            ++ (doStream this net options []).2 ->
  exists args warnings configured stream,
    getArgs this options = Ok (args, warnings)
    /\ config_headers (config this) = Ok configured
    /\ request = fimCompletionsRequest this configured options
                   {| body_args := args; body_stream := stream |}.
Proof.
  destruct (dispatched_requests this net options) as [-> ->].
  destruct (getArgs this options) as [[args warnings]|e];
    [|by intros Hin%elem_of_nil].
  destruct (config_headers (config this)) as [configured|e];
    [|by intros Hin%elem_of_nil].
  intros Hin. exists args, warnings, configured.
  apply elem_of_app in Hin as [Hin|Hin];
    apply list_elem_of_singleton in Hin; by eexists.
Qed.

Lemma dropTrailingSlash_cons (c d : Ascii.ascii) (rest : string) :
  dropTrailingSlash (String c (String d rest))
  = String c (dropTrailingSlash (String d rest)).
Proof. by destruct c as [[] [] [] [] [] [] [] []]. Qed.

Lemma dropTrailingSlash_slash (url : string) :
  dropTrailingSlash (url +:+ "/") = url.
Proof.
  induction url as [|c url IH]; [reflexivity|].
  rewrite string_app_cons.
  destruct url as [|d url].
  - change ("" +:+ "/") with "/". rewrite dropTrailingSlash_cons.
    reflexivity.
  - rewrite string_app_cons, dropTrailingSlash_cons.
    rewrite <- string_app_cons. by rewrite IH.
Qed.

Lemma endsWithSlash_cons (c d : Ascii.ascii) (rest : string) :
  endsWithSlash (String c (String d rest)) = endsWithSlash (String d rest).
Proof. by destruct c as [[] [] [] [] [] [] [] []]. Qed.

Lemma endsWithSlash_slash (url : string) : endsWithSlash (url +:+ "/") = true.
Proof.
  induction url as [|c url IH]; [reflexivity|].
  rewrite string_app_cons. destruct url as [|d url].
  - change ("" +:+ "/") with "/". by rewrite endsWithSlash_cons.
  - rewrite string_app_cons, endsWithSlash_cons.
    by rewrite <- string_app_cons.
Qed.

(** A URL that does not end with a slash is left as it is. *)
Lemma dropTrailingSlash_other (url : string) :
  (forall start, url <> start +:+ "/") -> dropTrailingSlash url = url.
Proof.
  induction url as [|c url IH]; intros Hother; [reflexivity|].
  destruct url as [|d url].
  - destruct c as [[] [] [] [] [] [] [] []]; try reflexivity.
    by destruct (Hother "").
  - rewrite dropTrailingSlash_cons. f_equal. apply IH.
    intros start Hstart. apply (Hother (String c start)).
    by rewrite string_app_cons, <- Hstart.
Qed.

(** X19: every request of a model made by the provider goes to the base
    URL followed by "/fim/completions", where the base URL is
    "https://api.mistral.ai/v1" when the settings give none, the given one
    unchanged when it does not end with a slash, and the given one with
    that one slash removed when it does; so a base URL written with a
    trailing slash and the same one written without reach the same
    endpoint, while an empty base URL is kept and not replaced by the
    default. *)
Theorem provider_request_url settings environment modelId net options request :
  request ∈ (doGenerate (createFimModel settings environment modelId)
               net options []).2
            ++ (doStream (createFimModel settings environment modelId)
                  net options []).2 ->
  (settings_baseURL settings = None ->
   post_url request = "https://api.mistral.ai/v1/fim/completions")
  /\ (forall url,
         settings_baseURL settings = Some url ->
         (forall start, url <> start +:+ "/") ->
         post_url request = url +:+ "/fim/completions")
  /\ (forall url, settings_baseURL settings = Some (url +:+ "/") ->
                  post_url request = url +:+ "/fim/completions")
  /\ (settings_baseURL settings = Some "" ->
      post_url request = "/fim/completions").
Proof.
  intros Hin.
  destruct (request_of_call _ _ _ _ Hin)
    as (args & warnings & configured & stream & _ & _ & ->).
  simpl. unfold withoutTrailingSlash. repeat split.
  - by intros ->.
  - intros url -> Hother. simpl. by rewrite dropTrailingSlash_other.
  - intros url ->. simpl. by rewrite dropTrailingSlash_slash.
  - by intros ->.
Qed.

Lemma provider_request_url_witness :
  let settings url :=
    {| settings_baseURL := Some url;
       settings_apiKey := Some "test-api-key";
       settings_headers := None |} in
  let model url := createFimModel (settings url) None "codestral-latest" in
  let net := testServer (jsonResponse [] testUsage) [] in
  exists request request',
    request ∈ (doGenerate (model ("https://proxy.example/v1" +:+ "/")) net
                 (callWithPrompt TEST_PROMPT) []).2
    /\ post_url request = "https://proxy.example/v1" +:+ "/fim/completions"
    /\ request' ∈ (doStream (model "https://proxy.example/v1") net
                     (callWithPrompt TEST_PROMPT) []).2
    /\ post_url request' = "https://proxy.example/v1" +:+ "/fim/completions".
Proof.
  intros settings model net.
  assert (Hsent : exists request,
             request ∈ (doGenerate (model ("https://proxy.example/v1" +:+ "/"))
                          net (callWithPrompt TEST_PROMPT) []).2).
  { eexists. vm_compute. left. }
  assert (Hsent' : exists request,
             request ∈ (doStream (model "https://proxy.example/v1")
                          net (callWithPrompt TEST_PROMPT) []).2).
  { eexists. vm_compute. left. }
  destruct Hsent as [request Hin]. destruct Hsent' as [request' Hin'].
  exists request, request'. split; [exact Hin|]. split; [|split; [exact Hin'|]].
  - refine (proj1 (proj2 (proj2
              (provider_request_url
                 (settings ("https://proxy.example/v1" +:+ "/")) None
                 "codestral-latest" net (callWithPrompt TEST_PROMPT)
                 request _))) _ _).
    + apply elem_of_app. by left.
    + reflexivity.
  - refine (proj1 (proj2
              (provider_request_url (settings "https://proxy.example/v1")
                 None "codestral-latest" net (callWithPrompt TEST_PROMPT)
                 request' _)) _ _ _).
    + apply elem_of_app. by right.
    + reflexivity.
    + intros start Hstart.
      apply (f_equal endsWithSlash) in Hstart.
      rewrite endsWithSlash_slash in Hstart. discriminate.
Defined.

Lemma lookup_default_headers (headers : option Headers) (name : string) :
  default ∅ headers !! name = headers ≫= (fun h => h !! name).
Proof. destruct headers; [reflexivity | apply lookup_empty]. Qed.

(** X20: in a request of a model made by the provider, a header of the
    call wins over a custom header of the settings with the same name, and
    that one wins over the Authorization entry "Bearer " + API key; a name
    none of the three gives is absent. *)
Theorem provider_header_precedence settings environment modelId net options
    key request name :
  loadApiKey (settings_apiKey settings) environment = Ok key ->
  request ∈ (doGenerate (createFimModel settings environment modelId)
               net options []).2
            ++ (doStream (createFimModel settings environment modelId)
                  net options []).2 ->
  post_headers request !! name
  = match Call.headers options ≫= (fun h => h !! name) with
    | Some value => Some value
    | None =>
        match settings_headers settings ≫= (fun h => h !! name) with
        | Some value => Some value
        | None =>
            if decide ("Authorization" = name)
            then Some ("Bearer " +:+ key) else None
        end
    end.
Proof.
  intros Hkey Hin.
  destruct (request_of_call _ _ _ _ Hin)
    as (args & warnings & configured & stream & _ & Hheaders & ->).
  simpl in Hheaders. unfold getHeaders in Hheaders.
  rewrite Hkey in Hheaders. injection Hheaders as <-.
  simpl. unfold combineHeaders.
  rewrite !lookup_union, !lookup_default_headers, lookup_singleton.
  destruct (Call.headers options ≫= _) as [v|],
    (settings_headers settings ≫= _) as [w|], (decide _);
    reflexivity.
Qed.

Lemma provider_header_precedence_witness :
  let settings :=
    {| settings_baseURL := None;
       settings_apiKey := Some "test-api-key";
       settings_headers :=
         Some {[ "Custom-Provider-Header" := "provider-header-value" ]} |} in
  let model := createFimModel settings None "mistral-small-latest" in
  let net := testServer (jsonResponse [] testUsage) [] in
  let options :=
    {| Call.prompt := TEST_PROMPT;
       Call.maxOutputTokens := None; Call.temperature := None;
       Call.topP := None; Call.topK := None;
       Call.frequencyPenalty := None; Call.presencePenalty := None;
       Call.stopSequences := None; Call.responseFormat := None;
       Call.seed := None; Call.providerOptions := None;
       Call.tools := None; Call.toolChoice := None;
       Call.includeRawChunks := None;
       Call.headers :=
         Some {[ "Custom-Request-Header" := "request-header-value" ]} |} in
  exists request,
    request ∈ (doGenerate model net options []).2
    /\ post_headers request !! "Authorization" = Some "Bearer test-api-key"
    /\ post_headers request !! "Custom-Provider-Header"
       = Some "provider-header-value"
    /\ post_headers request !! "Custom-Request-Header"
       = Some "request-header-value".
Proof.
  intros settings model net options.
  assert (Hsent : exists request,
             request ∈ (doGenerate model net options []).2).
  { eexists. vm_compute. left. }
  destruct Hsent as [request Hin]. exists request. split; [exact Hin|].
  assert (Hin' : request ∈ (doGenerate model net options []).2
                           ++ (doStream model net options []).2)
    by (apply elem_of_app; by left).
  pose proof (fun name =>
                provider_header_precedence settings None
                  "mistral-small-latest" net options "test-api-key" request
                  name eq_refl Hin') as Hlookup.
  rewrite !Hlookup. by repeat split.
Defined.

(** X21: the API key is loaded when a request is prepared, not when the
    model is made, and before the custom headers are looked at: without a
    key in the settings or the environment every call whose request builds
    fails with the load-API-key error and dispatches nothing, even when
    the custom headers or the headers of the call supply an Authorization
    entry; a call whose request does not build fails with the builder's
    error instead. *)
Theorem missing_api_key_fails_the_call settings modelId net options log :
  settings_apiKey settings = None ->
  let model := createFimModel settings None modelId in
  match getArgs model options with
  | Ok _ =>
      doGenerate model net options log = (Throw LoadAPIKeyError, log)
      /\ doStream model net options log = (Throw LoadAPIKeyError, log)
  | Throw e =>
      doGenerate model net options log = (Throw e, log)
      /\ doStream model net options log = (Throw e, log)
  end.
Proof.
  intros Hnone model.
  destruct (getArgs model options) as [[args warnings]|e] eqn:Hargs.
  - unfold doGenerate, doStream. cbv [mbind M_bind liftResult].
    rewrite Hargs. simpl. unfold getHeaders. rewrite Hnone. by simpl.
  - split; [by apply doGenerate_getArgs_throws
           | by apply doStream_getArgs_throws].
Qed.

Lemma missing_api_key_fails_the_call_witness :
  let settings :=
    {| settings_baseURL := None; settings_apiKey := None;
       settings_headers := Some {[ "Authorization" := "Bearer elsewhere" ]} |} in
  let model := createFimModel settings None "codestral-latest" in
  let net := testServer (jsonResponse [] testUsage) [] in
  doGenerate model net (callWithPrompt TEST_PROMPT) []
  = (Throw LoadAPIKeyError, [])
  /\ doStream model net (callWithPrompt TEST_PROMPT) []
     = (Throw LoadAPIKeyError, []).
Proof.
  intros settings model net.
  exact (missing_api_key_fails_the_call settings "codestral-latest" net
           (callWithPrompt TEST_PROMPT) [] eq_refl).
Defined.

(** ** What the normalizer does not read *)

Lemma withoutRaw_groups includeRawChunks chunk st value active text :
  withoutRaw (rawParts includeRawChunks chunk) = []
  /\ withoutRaw (metadataParts st value) = metadataParts st value
  /\ withoutRaw (textParts active text) = textParts active text
  /\ withoutRaw (flush st) = flush st.
Proof. repeat split; by part_groups. Qed.

Lemma withoutRaw_run includeRawChunks chunks :
  forall st,
    withoutRaw (transformAll includeRawChunks st chunks).1
    = (transformAll None st chunks).1
    /\ (transformAll includeRawChunks st chunks).2
       = (transformAll None st chunks).2.
Proof.
  induction chunks as [|chunk chunks IH]; intros st; [done|].
  destruct (chunk_cases chunk)
    as [(error & raw & ->)
       |[(value & raw & -> & Hnone)
        |(value & raw & choice & rest & -> & Hchoice)]].
  - rewrite !transformAll_failure. cbn [fst snd].
    destruct (IH st) as [Hparts Hfinal]. split; [|exact Hfinal].
    unfold withoutRaw in *. rewrite !filter_app, Hparts.
    destruct (withoutRaw_groups includeRawChunks (ParseFailure error raw)
                st (ChatChunk.mk None None None [] None) false "")
      as (Hraw & _).
    unfold withoutRaw in Hraw. by rewrite Hraw.
  - rewrite !transformAll_no_choice by exact Hnone. cbn [fst snd].
    split; [|reflexivity].
    destruct (withoutRaw_groups includeRawChunks (ParseSuccess value raw)
                st value false "") as (Hraw & Hmeta & _).
    unfold withoutRaw in *. by rewrite !filter_app, Hraw, Hmeta.
  - rewrite !(transformAll_success _ _ _ _ _ _ _ Hchoice). cbn [fst snd].
    destruct (IH (advance st value choice)) as [Hparts Hfinal].
    split; [|exact Hfinal].
    destruct (withoutRaw_groups includeRawChunks (ParseSuccess value raw)
                st value (StreamState.activeText st)
                (deltaText (ChatChunk.content (ChatChunk.delta choice))))
      as (Hraw & Hmeta & Htext & _).
    unfold withoutRaw in *.
    by rewrite !filter_app, Hraw, Hmeta, Htext, Hparts.
Qed.

(** X22: raw passthrough changes nothing but the raw parts: the stream
    with raw passthrough, its raw parts left out, is part for part the
    stream without it, closed or errored alike, with the same finish
    reason and usage. *)
Theorem raw_passthrough_adds_only_raw_parts warnings includeRawChunks chunks :
  withoutRawOutcome (pipeThrough warnings includeRawChunks chunks)
  = pipeThrough warnings None chunks.
Proof.
  unfold pipeThrough.
  destruct (withoutRaw_run includeRawChunks chunks StreamState.initial)
    as [Hparts Hfinal].
  destruct (transformAll includeRawChunks StreamState.initial chunks)
    as [parts final]; destruct (transformAll None StreamState.initial chunks)
    as [parts' final']; simpl in *. subst parts' final'.
  destruct final as [final|e]; simpl; f_equal; try reflexivity.
  destruct (withoutRaw_groups None (ParseFailure "" JNull) final
              (ChatChunk.mk None None None [] None) false "")
    as (_ & _ & _ & Hflush).
  unfold withoutRaw in *.
  by rewrite ?filter_cons, !filter_app, Hflush.
Qed.

(** X23: neither path reads the role, the tool calls or the index of the
    first choice, nor any further choice: two synchronous responses, or
    two chunks, that differ only there are normalized alike. *)
Theorem tool_calls_and_other_choices_are_not_read
    content finish_reason role role' tool_calls tool_calls' index index' :
  (forall this options log id created model usage responseHeaders rawValue
          rest rest',
      let response tool_calls index rest :=
        {| json_responseHeaders := responseHeaders;
           json_value :=
             ChatResponse.mk id created model
               (ChatResponse.mkChoice
                  (ChatResponse.mkMessage content tool_calls)
                  index finish_reason :: rest)
               usage;
           json_rawValue := rawValue |} in
      doGenerate this (answering (response tool_calls index rest)) options log
      = doGenerate this (answering (response tool_calls' index' rest'))
          options log)
  /\ (forall includeRawChunks st id created model usage raw rest rest',
         let chunk role tool_calls index rest :=
           ParseSuccess
             (ChatChunk.mk id created model
                (ChatChunk.mkChoice
                   (ChatChunk.mkDelta role content tool_calls)
                   finish_reason index :: rest)
                usage)
             raw in
         transform includeRawChunks st (chunk role tool_calls index rest)
         = transform includeRawChunks st (chunk role' tool_calls' index' rest')).
Proof.
  split.
  - intros. unfold doGenerate.
    cbv [mbind M_bind liftResult postJsonToApi mret M_ret throw].
    destruct (getArgs this options) as [[args warnings]|e]; [|reflexivity].
    by destruct (config_headers (config this)).
  - intros. subst chunk. reflexivity.
Qed.
